(** * Progress tracker: schema validation, session lifecycle, path resolution

    A shallow embedding of [functional/progress_tracker.py].

    - JSON values are an inductive type; Python dictionaries that end up in
      the progress file are association lists in insertion order, updated
      the way [d[k] = v] updates a Python dict (in place when the key is
      there, appended otherwise).
    - The interpreter state the module touches is a [World]: the file
      system seen through [pathlib], the module-level [_session_events]
      dictionary and the clock read by [datetime.utcnow()].
    - Functions that raise return [Raise e] together with the world as it
      was when the exception left the function. *)

From Stdlib Require Import ZArith String List Bool Ascii Floats.
From stdpp Require Import gmap strings list fin_maps pretty.

Local Open Scope string_scope.
Local Open Scope list_scope.
Local Open Scope Z_scope.
Set Warnings "-register-all".

(** ** JSON values and Python dictionaries *)

Inductive json : Type :=
| JNull
| JBool (b : bool)
| JInt (z : Z)
| JFloat (f : PrimFloat.float)
| JStr (s : string)
| JList (l : list json)
| JDict (d : list (string * json)).

(** A Python [dict] with string keys, in insertion order. *)
Abbreviation pydict := (list (string * json)).

Fixpoint dict_get (k : string) (d : pydict) : option json :=
  match d with
  | [] => None
  | (k', v) :: rest => if String.eqb k k' then Some v else dict_get k rest
  end.

(** [k in d] *)
Definition dict_mem (k : string) (d : pydict) : bool :=
  match dict_get k d with Some _ => true | None => false end.

(** [d.get(k, default)] *)
Definition dict_get_default (k : string) (default : json) (d : pydict) : json :=
  match dict_get k d with Some v => v | None => default end.

(** [d[k] = v]: an existing key keeps its position, a new key goes last. *)
Fixpoint dict_set (k : string) (v : json) (d : pydict) : pydict :=
  match d with
  | [] => [(k, v)]
  | (k', v') :: rest =>
      if String.eqb k k' then (k, v) :: rest else (k', v') :: dict_set k v rest
  end.

(** [d.update(other)] *)
Definition dict_update (d other : pydict) : pydict :=
  fold_left (fun acc kv => dict_set (fst kv) (snd kv) acc) other d.

Definition dict_keys (d : pydict) : list string := map fst d.

(** ** Exceptions and results *)

Inductive exn : Type :=
| ProgressValidationError (msg : string)
| TypeError
| KeyError (key : string)
| AttributeError
| JSONDecodeError
| IsADirectoryError
| NotADirectoryError
| FileNotFoundError.

Inductive result (A : Type) : Type :=
| Ok (a : A)
| Raise (e : exn).
Arguments Ok {A} a.
Arguments Raise {A} e.

(** ** Python's [in] on the values a JSON document can hold *)

Fixpoint is_substring (needle hay : string) : bool :=
  String.prefix needle hay ||
  match hay with
  | EmptyString => false
  | String _ rest => is_substring needle rest
  end.

(** [s == v] for a string [s]: only an equal string compares equal. *)
Definition str_eq_json (s : string) (v : json) : bool :=
  match v with JStr s' => String.eqb s s' | _ => false end.

(** [field in container]: key membership for a dict, element membership
    for a list, substring test for a string, [TypeError] otherwise. *)
Definition py_in (field : string) (container : json) : result bool :=
  match container with
  | JDict d => Ok (dict_mem field d)
  | JList l => Ok (existsb (str_eq_json field) l)
  | JStr s => Ok (is_substring field s)
  | JNull | JBool _ | JInt _ | JFloat _ => Raise TypeError
  end.

(** [v != 2]: integers and floats compare by value, [True] is [1] and
    [False] is [0], every other value differs from [2]. *)
Definition py_ne_2 (v : json) : bool :=
  match v with
  | JInt z => negb (Z.eqb z 2)
  | JFloat f => negb (PrimFloat.eqb f 2%float)
  | _ => true
  end.

(** ** Schema validation *)

Definition REQUIRED_TOP_LEVEL : list string :=
  ["version"; "project"; "currentWork"; "lastSession"].
Definition REQUIRED_CURRENT_WORK : list string :=
  ["type"; "plan"; "planTask"; "debugIssue"; "debugPhase"].
Definition REQUIRED_LAST_SESSION : list string :=
  ["date"; "duration_minutes"; "summary"; "events"; "commits"; "nextSteps"].

(** [for field in fields: if field not in container: raise
    ProgressValidationError(prefix + field)] *)
Fixpoint check_fields (prefix : string) (container : json)
    (fields : list string) : result unit :=
  match fields with
  | [] => Ok tt
  | field :: rest =>
      match py_in field container with
      | Raise e => Raise e
      | Ok false => Raise (ProgressValidationError (prefix +:+ field))
      | Ok true => check_fields prefix container rest
      end
  end.

Section Validation.

(** [str(v)] as an f-string renders it; the formatting of nested values is
    Python's own and stays abstract. *)
Variable py_str : json -> string.

Definition validate_progress_schema (data : pydict) : result unit :=
  match dict_get "version" data with
  | None => Raise (ProgressValidationError "Missing required field: version")
  | Some v =>
      if py_ne_2 v then
        Raise (ProgressValidationError ("Expected version 2, got " +:+ py_str v))
      else
        match check_fields "Missing required field: " (JDict data) REQUIRED_TOP_LEVEL with
        | Raise e => Raise e
        | Ok _ =>
            let current_work := dict_get_default "currentWork" (JDict []) data in
            match check_fields "Missing currentWork field: " current_work
                    REQUIRED_CURRENT_WORK with
            | Raise e => Raise e
            | Ok _ =>
                let last_session := dict_get_default "lastSession" (JDict []) data in
                check_fields "Missing lastSession field: " last_session
                  REQUIRED_LAST_SESSION
            end
        end
  end.

End Validation.

(** ** Paths

    A [pathlib] path is its list of parts below the anchor, innermost part
    first: [/srv/app/x.json] is [["x.json"; "app"; "srv"]] and the anchor
    itself is [[]].  [pathlib] works on the parts only (it does not look at
    the file system), so [parent], [name] and [/] are list operations. *)

Abbreviation Path := (list string).

(** [p.parent]; the anchor is its own parent. *)
Definition parent (p : Path) : Path := tail p.

(** [p.name]; empty for the anchor. *)
Definition name (p : Path) : string := hd EmptyString p.

(** [p / part] *)
Definition joinpath (p : Path) (part : string) : Path := part :: p.
Infix "//" := joinpath (at level 40, left associativity).

(** ** The world: files, the session buffers, the clock *)

(** The text of a file, kept as the JSON document it denotes when it is one:
    [json.dumps] and [json.loads] are inverse on [json]. *)
Inductive file_text : Type :=
| JsonText (j : json)
| OtherText (raw : string).

Inductive node : Type :=
| Dir
| File (text : file_text).

Inductive EventType : Type :=
| SESSION_START | SESSION_END | CHECKPOINT | PLAN_STARTED | PLAN_TASK_COMPLETED
| DEBUG_STARTED | DEBUG_ROOT_CAUSE | DEBUG_RESOLVED | FEATURE_STARTED
| FEATURE_COMPLETED.

Definition EventType_value (t : EventType) : string :=
  match t with
  | SESSION_START => "session_start"
  | SESSION_END => "session_end"
  | CHECKPOINT => "checkpoint"
  | PLAN_STARTED => "plan_started"
  | PLAN_TASK_COMPLETED => "plan_task_completed"
  | DEBUG_STARTED => "debug_started"
  | DEBUG_ROOT_CAUSE => "debug_root_cause"
  | DEBUG_RESOLVED => "debug_resolved"
  | FEATURE_STARTED => "feature_started"
  | FEATURE_COMPLETED => "feature_completed"
  end.

Inductive WorkType : Type := GENERAL | PLAN | DEBUG | FEATURE.

Definition WorkType_value (t : WorkType) : string :=
  match t with
  | GENERAL => "general"
  | PLAN => "plan"
  | DEBUG => "debug"
  | FEATURE => "feature"
  end.

Record ProgressEvent : Type := mkEvent {
  type : string;
  timestamp : string;
  data : pydict
}.

(** [ProgressEvent.to_dict] *)
Definition to_dict (self : ProgressEvent) : pydict :=
  let result := [("type", JStr (type self)); ("timestamp", JStr (timestamp self))] in
  dict_update result (data self).

Record World : Type := mkWorld {
  fs : gmap (list string) node;
  _session_events : gmap string (list ProgressEvent);
  clock : nat
}.

(** A computation runs in a world and leaves a world, also when it raises. *)
Definition M (A : Type) : Type := World -> result A * World.

Definition ret {A} (a : A) : M A := fun w => (Ok a, w).
Definition raise {A} (e : exn) : M A := fun w => (Raise e, w).
Definition bind {A B} (c : M A) (k : A -> M B) : M B :=
  fun w => match c w with
           | (Ok a, w') => k a w'
           | (Raise e, w') => (Raise e, w')
           end.
Definition lift {A} (r : result A) : M A := fun w => (r, w).

Notation "'let*' x ':=' c 'in' k" := (bind c (fun x => k))
  (at level 10, x name, c at level 100, k at level 200).
Notation "'do*' c 'then' k" := (bind c (fun _ => k))
  (at level 10, c at level 100, k at level 200).

(** [path.exists()] *)
Definition path_exists (p : Path) : M bool :=
  fun w => (Ok (if fs w !! p is Some _ then true else false), w).

(** [path.read_text()] *)
Definition read_text (p : Path) : M file_text :=
  fun w => match fs w !! p with
           | Some (File t) => (Ok t, w)
           | Some Dir => (Raise IsADirectoryError, w)
           | None => (Raise FileNotFoundError, w)
           end.

(** What is at a directory path: the anchor is a directory that is always
    there. *)
Definition dir_lookup (w : World) (dir : Path) : option node :=
  match dir with
  | [] => Some Dir
  | _ => fs w !! dir
  end.

(** [path.write_text(t)]: overwrites the file that is there (its directory
    is there with it), and creates the file where nothing is, which needs
    the containing directory: without it the call raises
    [FileNotFoundError], and [NotADirectoryError] when a file is in its
    place. *)
Definition write_text (p : Path) (t : file_text) : M unit :=
  fun w =>
    let written := mkWorld (<[p := File t]> (fs w)) (_session_events w) (clock w) in
    match fs w !! p with
    | Some Dir => (Raise IsADirectoryError, w)
    | Some (File _) => (Ok tt, written)
    | None =>
        match dir_lookup w (parent p) with
        | Some Dir => (Ok tt, written)
        | Some (File _) => (Raise NotADirectoryError, w)
        | None => (Raise FileNotFoundError, w)
        end
    end.

Definition json_dumps (j : json) : file_text := JsonText j.

Definition json_loads (t : file_text) : result json :=
  match t with
  | JsonText j => Ok j
  | OtherText _ => Raise JSONDecodeError
  end.

(** [datetime.utcnow()]: the instant is the number of the reading; every
    reading moves the clock on. *)
Definition utcnow : M nat :=
  fun w => (Ok (clock w), mkWorld (fs w) (_session_events w) (S (clock w))).

(** [obj[key]] for a string [key] *)
Definition py_getitem (obj : json) (key : string) : result json :=
  match obj with
  | JDict d => match dict_get key d with
               | Some v => Ok v
               | None => Raise (KeyError key)
               end
  | _ => Raise TypeError
  end.

(** [obj[key] = v] for a string [key] *)
Definition py_setitem (obj : json) (key : string) (v : json) : result json :=
  match obj with
  | JDict d => Ok (JDict (dict_set key v d))
  | _ => Raise TypeError
  end.

(** [obj.get(key, default)] *)
Definition py_get (obj : json) (key : string) (default : json) : result json :=
  match obj with
  | JDict d => Ok (dict_get_default key default d)
  | _ => Raise AttributeError
  end.

Definition opt_str (o : option string) : json :=
  match o with Some s => JStr s | None => JNull end.
Definition opt_int (o : option Z) : json :=
  match o with Some z => JInt z | None => JNull end.

(** ** The tracker *)

Section Tracker.

(** [t.isoformat()] and [t.strftime("%Y-%m-%d")] of the instant of reading
    number [t]. *)
Variable isoformat : nat -> string.
Variable strftime_ymd : nat -> string.

Definition create_event (event_type : EventType) (kwargs : pydict) : M ProgressEvent :=
  let* now := utcnow in
  let timestamp := isoformat now +:+ "Z" in
  ret (mkEvent (EventType_value event_type) timestamp kwargs).

Definition default_current_work : pydict :=
  [("type", JStr "general"); ("plan", JNull); ("planTask", JNull);
   ("debugIssue", JNull); ("debugPhase", JNull)].

Definition create_empty_progress (project_name : string) : M pydict :=
  let* updated := utcnow in
  let* today := utcnow in
  ret [("version", JInt 2);
       ("lastUpdated", JStr (isoformat updated +:+ "Z"));
       ("project", JStr project_name);
       ("currentWork", JDict default_current_work);
       ("lastSession", JDict
          [("date", JStr (strftime_ymd today));
           ("duration_minutes", JInt 0);
           ("summary", JStr EmptyString);
           ("events", JList []);
           ("commits", JList []);
           ("nextSteps", JList [])]);
       ("recentSessions", JList []);
       ("knownIssues", JList [])].

Definition _load_progress (path : Path) : M json :=
  let* present := path_exists path in
  if negb present then
    let* data := create_empty_progress (name (parent path)) in
    do* write_text path (json_dumps (JDict data)) then
    ret (JDict data)
  else
    let* text := read_text path in
    lift (json_loads text).

Definition _save_progress (path : Path) (data : json) : M unit :=
  let* now := utcnow in
  let* data := lift (py_setitem data "lastUpdated" (JStr (isoformat now +:+ "Z"))) in
  write_text path (json_dumps data).

(** [_session_events[session_id] = events] *)
Definition set_session_events (session_id : string) (events : list ProgressEvent) : M unit :=
  fun w => (Ok tt, mkWorld (fs w) (<[session_id := events]> (_session_events w)) (clock w)).

(** [del _session_events[session_id]] *)
Definition del_session_events (session_id : string) : M unit :=
  fun w => (Ok tt, mkWorld (fs w) (delete session_id (_session_events w)) (clock w)).

(** [_session_events.get(session_id)] *)
Definition get_session_events (session_id : string) : M (option (list ProgressEvent)) :=
  fun w => (Ok (_session_events w !! session_id), w).

Definition start_session (path : Path) (session_id : string) : M unit :=
  let* data := _load_progress path in
  let* current_work := lift (py_getitem data "currentWork") in
  let* current_work := lift (py_setitem current_work "type" (JStr "general")) in
  (* the assignment went into the dict held by [data] *)
  let* data := lift (py_setitem data "currentWork" current_work) in
  let* started := create_event SESSION_START [] in
  do* set_session_events session_id [started] then
  _save_progress path data.

Definition end_session (path : Path) (session_id : string) (duration_minutes : Z)
    (summary : string) (commits : list json) (next_steps : option (list json)) : M unit :=
  let* data := _load_progress path in
  let* stored := get_session_events session_id in
  let* ended := create_event SESSION_END [("duration", JInt duration_minutes)] in
  let events := default [] stored ++ [ended] in
  (* [append] works on the list the buffer holds, when it holds one *)
  do* (if stored is Some _ then set_session_events session_id events else ret tt) then
  let* today := utcnow in
  let last_session :=
    [("date", JStr (strftime_ymd today));
     ("duration_minutes", JInt duration_minutes);
     ("summary", JStr summary);
     ("events", JList (map (fun e => JDict (to_dict e)) events));
     ("commits", JList commits);
     ("nextSteps", JList (match next_steps with
                          | Some (s :: rest) => s :: rest
                          | _ => []
                          end))] in
  let* data := lift (py_setitem data "lastSession" (JDict last_session)) in
  let* data := lift (py_setitem data "currentWork" (JDict default_current_work)) in
  do* (if stored is Some _ then del_session_events session_id else ret tt) then
  _save_progress path data.

Definition add_event (path : Path) (session_id : string) (event_type : EventType)
    (kwargs : pydict) : M unit :=
  let* stored := get_session_events session_id in
  do* (if stored is None then set_session_events session_id [] else ret tt) then
  let* buffer := get_session_events session_id in
  let* event := create_event event_type kwargs in
  set_session_events session_id (default [] buffer ++ [event]).

Definition get_current_work (path : Path) : M json :=
  let* data := _load_progress path in
  lift (py_get data "currentWork" (JDict [])).

Definition set_current_work (path : Path) (work_type : WorkType)
    (plan : option string) (plan_task : option Z) (debug_issue : option string)
    (debug_phase : option string) (feature_id : option string) : M unit :=
  let* data := _load_progress path in
  let* data := lift (py_setitem data "currentWork" (JDict
    [("type", JStr (WorkType_value work_type));
     ("plan", opt_str plan);
     ("planTask", opt_int plan_task);
     ("debugIssue", opt_str debug_issue);
     ("debugPhase", opt_str debug_phase);
     ("featureId", opt_str feature_id)])) in
  _save_progress path data.

Definition PROGRESS_FILENAME : string := "project-progress.json".

Inductive walk_exit : Type :=
| Found (progress_path : Path)
| GitRoot
| Anchor.

(** The [while current != current.parent] loop.  [current] equals its
    parent exactly when it has no parts, and the parent of [part :: up] is
    [up], so the loop is a recursion on the parts of [current]. *)
Fixpoint walk_up (current : Path) : M walk_exit :=
  match current with
  | [] => ret Anchor
  | _ :: up =>
      let progress_path := current // PROGRESS_FILENAME in
      let* found := path_exists progress_path in
      if found then ret (Found progress_path)
      else
        let* git := path_exists (current // ".git") in
        if git then ret GitRoot
        else walk_up up
  end.

Definition find_progress_file (cwd : Path) (create_if_missing : bool) : M (option Path) :=
  let progress_path := cwd // PROGRESS_FILENAME in
  let* here := path_exists progress_path in
  if here then ret (Some progress_path)
  else
    let* walked := walk_up cwd in
    match walked with
    | Found progress_path => ret (Some progress_path)
    | GitRoot | Anchor =>
        if create_if_missing then
          let progress_path := cwd // PROGRESS_FILENAME in
          let project_name := name cwd in
          let* data := create_empty_progress project_name in
          do* write_text progress_path (json_dumps (JDict data)) then
          ret (Some progress_path)
        else ret None
    end.

End Tracker.

(** ** The validation rule as the specification words it *)

(** A required key of a nested record: the value under [record] is an
    object and has the key. *)
Definition has_subkey (record key : string) (data : pydict) : bool :=
  match dict_get record data with
  | Some (JDict d) => dict_mem key d
  | _ => false
  end.

(** The checks of the specification, in its order. *)
Inductive check : Type :=
| VersionPresent
| VersionIs2
| TopLevelKey (key : string)
| CurrentWorkKey (key : string)
| LastSessionKey (key : string).

Definition checks_in_order : list check :=
  [VersionPresent; VersionIs2]
  ++ map TopLevelKey ["version"; "project"; "currentWork"; "lastSession"]
  ++ map CurrentWorkKey ["type"; "plan"; "planTask"; "debugIssue"; "debugPhase"]
  ++ map LastSessionKey
       ["date"; "duration_minutes"; "summary"; "events"; "commits"; "nextSteps"].

Definition passes (data : pydict) (c : check) : bool :=
  match c with
  | VersionPresent => dict_mem "version" data
  | VersionIs2 =>
      match dict_get "version" data with
      | Some v => negb (py_ne_2 v)
      | None => false
      end
  | TopLevelKey key => dict_mem key data
  | CurrentWorkKey key => has_subkey "currentWork" key data
  | LastSessionKey key => has_subkey "lastSession" key data
  end.

Definition failure_message (py_str : json -> string) (data : pydict) (c : check) : string :=
  match c with
  | VersionPresent => "Missing required field: version"
  | VersionIs2 =>
      "Expected version 2, got " +:+ py_str (dict_get_default "version" JNull data)
  | TopLevelKey key => "Missing required field: " +:+ key
  | CurrentWorkKey key => "Missing currentWork field: " +:+ key
  | LastSessionKey key => "Missing lastSession field: " +:+ key
  end.

(** Fail fast: the first check that does not pass decides the message. *)
Definition spec_validate (py_str : json -> string) (data : pydict) : result unit :=
  match List.find (fun c => negb (passes data c)) checks_in_order with
  | Some c => Raise (ProgressValidationError (failure_message py_str data c))
  | None => Ok tt
  end.

(** The record is version 2 and has every required field. *)
Definition fully_populated_v2 (data : pydict) : bool :=
  forallb (passes data) checks_in_order.

(** [validate] raises its schema error. *)
Definition raises_schema_error (r : result unit) : Prop :=
  exists msg, r = Raise (ProgressValidationError msg).

(** The claim of exactness: the schema error is raised exactly for the
    records that are not fully populated version 2 records. *)
Definition validation_is_exact (py_str : json -> string) (data : pydict) : Prop :=
  raises_schema_error (validate_progress_schema py_str data)
  <-> fully_populated_v2 data = false.

(** The values under [currentWork] and [lastSession] are objects, where
    the record has these keys. *)
Definition is_object_or_absent (key : string) (data : pydict) : bool :=
  match dict_get key data with
  | Some (JDict _) | None => true
  | Some _ => false
  end.

Definition nested_records_are_objects (data : pydict) : bool :=
  is_object_or_absent "currentWork" data && is_object_or_absent "lastSession" data.

(** [del d[k]] where the key is there, nothing otherwise. *)
Definition dict_remove (k : string) (d : pydict) : pydict :=
  List.filter (fun kv => negb (String.eqb k (fst kv))) d.

(** A record whose [currentWork] is the list of the field names and whose
    [lastSession] is a string naming the fields: no nested field at all. *)
Definition record_without_nested_fields : pydict :=
  [("version", JInt 2);
   ("project", JStr "demo");
   ("currentWork", JList [JStr "type"; JStr "plan"; JStr "planTask";
                          JStr "debugIssue"; JStr "debugPhase"]);
   ("lastSession", JStr "date duration_minutes summary events commits nextSteps")].

(** A record whose [currentWork] is [null]. *)
Definition record_with_null_current_work : pydict :=
  [("version", JInt 2);
   ("project", JStr "demo");
   ("currentWork", JNull);
   ("lastSession", JDict [("date", JStr "2025-12-11"); ("duration_minutes", JInt 0);
                          ("summary", JStr EmptyString); ("events", JList []);
                          ("commits", JList []); ("nextSteps", JList [])])].

(** The record of [test_valid_v2_schema]. *)
Definition valid_progress : pydict :=
  [("version", JInt 2);
   ("lastUpdated", JStr "2025-12-11T18:00:00Z");
   ("project", JStr "test-project");
   ("currentWork", JDict [("type", JStr "general"); ("plan", JNull);
                          ("planTask", JNull); ("debugIssue", JNull);
                          ("debugPhase", JNull)]);
   ("lastSession", JDict [("date", JStr "2025-12-11"); ("duration_minutes", JInt 45);
                          ("summary", JStr "Test session"); ("events", JList []);
                          ("commits", JList []); ("nextSteps", JList [])]);
   ("recentSessions", JList []);
   ("knownIssues", JList [])].

(** A rendering of values, for the examples: numbers in decimal, the rest
    by a tag. *)
Definition example_py_str (v : json) : string :=
  match v with
  | JInt z => pretty z
  | JStr s => s
  | JNull => "None"
  | JBool true => "True"
  | JBool false => "False"
  | _ => "..."
  end.

(** ** The progress store as the specification words it *)

(** The default record: version 2, the given project name, general work,
    an empty last session. *)
Definition default_record (project_name last_updated today : string) : pydict :=
  [("version", JInt 2);
   ("lastUpdated", JStr last_updated);
   ("project", JStr project_name);
   ("currentWork", JDict default_current_work);
   ("lastSession", JDict
      [("date", JStr today);
       ("duration_minutes", JInt 0);
       ("summary", JStr EmptyString);
       ("events", JList []);
       ("commits", JList []);
       ("nextSteps", JList [])]);
   ("recentSessions", JList []);
   ("knownIssues", JList [])].

(** The file at [path] holds the record [d]. *)
Definition holds_record (w : World) (path : Path) (d : pydict) : Prop :=
  fs w !! path = Some (File (JsonText (JDict d))).

(** A file is at [path]. *)
Definition is_file (w : World) (path : Path) : Prop :=
  exists text, fs w !! path = Some (File text).

(** [dir] is a directory that is there. *)
Definition is_directory (w : World) (dir : Path) : Prop :=
  dir_lookup w dir = Some Dir.

(** The directory that contains [path] is there. *)
Definition in_directory (w : World) (path : Path) : Prop :=
  is_directory w (parent path).

(** Nothing is at [path] and its directory is there, or a file holding a
    JSON object is at [path]. *)
Definition usable (w : World) (path : Path) : Prop :=
  (fs w !! path = None /\ in_directory w path) \/ exists d, holds_record w path d.

(** The file at [path] holds a default record, as created at some time for
    some project. *)
Definition holds_fresh_default (w : World) (path : Path) : Prop :=
  exists project_name last_updated today,
    holds_record w path (default_record project_name last_updated today).

(** [lastSession.key] and [currentWork.key] of a record. *)
Definition nested_get (record key : string) (d : pydict) : option json :=
  match dict_get record d with
  | Some (JDict r) => dict_get key r
  | _ => None
  end.

(** The payload fields that belong to a work type. *)
Definition fields_of (t : WorkType) : list string :=
  match t with
  | GENERAL => []
  | PLAN => ["plan"; "planTask"]
  | DEBUG => ["debugIssue"; "debugPhase"]
  | FEATURE => ["featureId"]
  end.

Definition is_null (o : option json) : bool :=
  match o with Some JNull => true | _ => false end.

(** The fields that belong to the other work types are null. *)
Definition other_fields_null (t : WorkType) (cw : pydict) : bool :=
  forallb (fun key => existsb (String.eqb key) (fields_of t) || is_null (dict_get key cw))
    ["plan"; "planTask"; "debugIssue"; "debugPhase"; "featureId"].

(** [currentWork] as [set_current_work] is given it. *)
Definition work_record (work_type : WorkType) (plan : option string)
    (plan_task : option Z) (debug_issue debug_phase feature_id : option string) : pydict :=
  [("type", JStr (WorkType_value work_type));
   ("plan", opt_str plan);
   ("planTask", opt_int plan_task);
   ("debugIssue", opt_str debug_issue);
   ("debugPhase", opt_str debug_phase);
   ("featureId", opt_str feature_id)].

(** ** Path resolution as the specification words it *)

(** The directory has the progress file. *)
Definition has_file (w : World) (dir : Path) : bool :=
  if fs w !! (dir // "project-progress.json") is Some _ then true else false.

(** The directory has the version-control marker. *)
Definition has_git (w : World) (dir : Path) : bool :=
  if fs w !! (dir // ".git") is Some _ then true else false.

(** The [k]-th parent of [cwd]: [cwd] itself for [k = 0]. *)
Definition nth_parent (k : nat) (cwd : Path) : Path := drop k cwd.

(** No directory from [cwd] up to, not including, its [k]-th parent has the
    file or the marker. *)
Definition clear_below (w : World) (cwd : Path) (k : nat) : Prop :=
  forall j, (j < k)%nat ->
    has_file w (nth_parent j cwd) = false /\ has_git w (nth_parent j cwd) = false.

(** What resolution does when the walk finds nothing. *)
Definition when_not_found (isoformat strftime_ymd : nat -> string) (cwd : Path)
    (create_if_missing : bool) (w : World) : result (option Path) * World :=
  if create_if_missing then
    (Ok (Some (cwd // "project-progress.json")),
     mkWorld
       (<[cwd // "project-progress.json" :=
            File (JsonText (JDict (default_record (name cwd)
              (isoformat (clock w) +:+ "Z") (strftime_ymd (S (clock w))))))]> (fs w))
       (_session_events w) (S (S (clock w))))
  else (Ok None, w).

(** ** Worlds and calls for the examples *)

Definition example_isoformat (t : nat) : string := "2025-12-11T18:00:" +:+ pretty t.
Definition example_strftime (t : nat) : string := "2025-12-11".

(** [/tmp/proj/project-progress.json] *)
Definition progress_file : Path := ["project-progress.json"; "proj"; "tmp"].

Definition empty_world : World := mkWorld ∅ ∅ 0.

(** The directory [/tmp/proj] is there and is empty. *)
Definition project_world : World := mkWorld {[ ["proj"; "tmp"] := Dir ]} ∅ 0.

(** The file holds a default record, as the tests write it. *)
Definition world_with_default : World :=
  mkWorld {[ progress_file :=
               File (JsonText (JDict (default_record "test-project"
                 "2025-12-11T17:00:00Z" "2025-12-11"))) ]} ∅ 0.

(** The world after [start_session] for session [test-123]. *)
Definition started_world : World :=
  snd (start_session example_isoformat example_strftime progress_file "test-123"
         world_with_default).

Definition example_commit : json :=
  JDict [("hash", JStr "abc123"); ("message", JStr "Test commit")].

(** [root/.git/], [root/sub/], and the progress file at [root/other/] only. *)
Definition tree_world : World :=
  mkWorld (<[ ["root"] := Dir ]>
          (<[ [".git"; "root"] := Dir ]>
          (<[ ["sub"; "root"] := Dir ]>
          (<[ ["other"; "root"] := Dir ]>
          (<[ ["deep"; "other"; "root"] := Dir ]>
          (<[ ["project-progress.json"; "other"; "root"] := File (JsonText (JDict [])) ]>
           ∅)))))) ∅ 0.

(** ** Deserialising events *)

(** [d.pop(k)]: the value under the key and the dictionary without it;
    [None] stands for the [KeyError]. *)
Fixpoint dict_pop (k : string) (d : pydict) : option (json * pydict) :=
  match d with
  | [] => None
  | (k', v) :: rest =>
      if String.eqb k k' then Some (v, rest)
      else match dict_pop k rest with
           | Some (x, rest') => Some (x, (k', v) :: rest')
           | None => None
           end
  end.

(** [ProgressEvent.from_dict]: the three arguments the constructor is called
    with.  The dataclass does not check them, so the type and the timestamp
    are whatever values the dictionary holds. *)
Definition from_dict (d : pydict) : result (json * json * pydict) :=
  match dict_pop "type" d with
  | None => Raise (KeyError "type")
  | Some (event_type, d) =>
      match dict_pop "timestamp" d with
      | None => Raise (KeyError "timestamp")
      | Some (timestamp, d) => Ok (event_type, timestamp, d)
      end
  end.

(** [null], a boolean or a number: the values Python's [in] cannot be
    asked about. *)
Definition is_scalar (v : json) : bool :=
  match v with
  | JNull | JBool _ | JInt _ | JFloat _ => true
  | JStr _ | JList _ | JDict _ => false
  end.

(** ** Several events in a row *)

(** The calls [add_event(path, session_id, t, **kwargs)], one after the
    other, for the entries [(t, kwargs)] of the list. *)
Fixpoint add_events (isoformat : nat -> string) (path : Path) (session_id : string)
    (calls : list (EventType * pydict)) : M unit :=
  match calls with
  | [] => ret tt
  | (event_type, kwargs) :: rest =>
      do* add_event isoformat path session_id event_type kwargs then
      add_events isoformat path session_id rest
  end.

(** The events these calls make when the first of them reads the clock at
    [now]. *)
Fixpoint stamped (isoformat : nat -> string) (now : nat)
    (calls : list (EventType * pydict)) : list ProgressEvent :=
  match calls with
  | [] => []
  | (event_type, kwargs) :: rest =>
      mkEvent (EventType_value event_type) (isoformat now +:+ "Z") kwargs
      :: stamped isoformat (S now) rest
  end.

(** ** More worlds and records for the examples *)

(** The progress file holds the JSON document [j]; no session is open. *)
Definition world_holding (j : json) : World :=
  mkWorld {[ progress_file := File (JsonText j) ]} ∅ 0.

(** A version 2 record with a project and nothing else. *)
Definition bare_record : pydict := [("version", JInt 2); ("project", JStr "demo")].

(** A default record on which plan work was declared. *)
Definition plan_record : pydict :=
  dict_set "currentWork"
    (JDict (work_record PLAN (Some "p.md") (Some 2) None None None))
    (default_record "test-project" "2025-12-11T17:00:00Z" "2025-12-11").

(** The progress file is not JSON. *)
Definition corrupt_world : World :=
  mkWorld {[ progress_file := File (OtherText "{not json") ]} ∅ 0.

(** The progress file holds a JSON list, and session [test-123] has
    started. *)
Definition list_world : World :=
  mkWorld {[ progress_file := File (JsonText (JList [])) ]}
    {[ "test-123" := [mkEvent "session_start" "2025-12-11T17:59:59Z" []] ]} 0.

Definition checkpoint_event : ProgressEvent :=
  mkEvent "checkpoint" "2025-12-11T18:00:00Z" [("summary", JStr "Mid-session save")].

(** An event whose payload has a key named [type]. *)
Definition clobbered_event : ProgressEvent :=
  mkEvent "checkpoint" "2025-12-11T18:00:00Z" [("type", JStr "urgent")].

Definition task_dict : pydict :=
  [("type", JStr "plan_task_completed"); ("timestamp", JStr "2025-12-11T18:00:00Z");
   ("task", JInt 3)].

Definition three_calls : list (EventType * pydict) :=
  [(PLAN_STARTED, [("plan", JStr "test.md")]);
   (PLAN_TASK_COMPLETED, [("task", JInt 1)]);
   (CHECKPOINT, [])].

(** ** Facts about dictionaries *)

Lemma dict_get_set_eq k v d : dict_get k (dict_set k v d) = Some v.
Proof.
  induction d as [|[k' v'] d IH]; simpl.
  - by rewrite String.eqb_refl.
  - destruct (String.eqb k k') eqn:E; simpl; rewrite ?E; [by rewrite String.eqb_refl | done].
Qed.

Lemma dict_get_set_ne k k' v d : k <> k' -> dict_get k' (dict_set k v d) = dict_get k' d.
Proof.
  intros Hne. induction d as [|[k0 v0] d IH]; simpl.
  - destruct (String.eqb_spec k' k); congruence.
  - destruct (String.eqb_spec k k0) as [->|Hk]; simpl.
    + destruct (String.eqb_spec k' k0); congruence.
    + destruct (String.eqb_spec k' k0); congruence.
Qed.

Lemma dict_remove_set k v d : dict_remove k (dict_set k v d) = dict_remove k d.
Proof.
  unfold dict_remove. induction d as [|[k0 v0] d IH]; cbn [dict_set List.filter fst].
  - by rewrite String.eqb_refl.
  - destruct (String.eqb_spec k k0) as [->|Hk]; cbn [List.filter fst].
    + by rewrite String.eqb_refl.
    + destruct (String.eqb_spec k k0); [done|]. cbn [negb]. by rewrite IH.
Qed.

Lemma dict_get_remove_ne k k' d : k <> k' -> dict_get k' (dict_remove k d) = dict_get k' d.
Proof.
  intros Hne. unfold dict_remove. induction d as [|[k0 v0] d IH]; simpl; [done|].
  destruct (String.eqb_spec k k0) as [->|Hk]; simpl.
  - destruct (String.eqb_spec k' k0); congruence.
  - destruct (String.eqb_spec k' k0); congruence.
Qed.

Lemma dict_mem_remove_ne k k' d : k <> k' -> dict_mem k' (dict_remove k d) = dict_mem k' d.
Proof. intros Hne. unfold dict_mem. by rewrite dict_get_remove_ne. Qed.

Lemma find_first {A} (f : A -> bool) (l : list A) (i : nat) (c : A) :
  l !! i = Some c ->
  (forall j c', (j < i)%nat -> l !! j = Some c' -> f c' = false) ->
  f c = true ->
  List.find f l = Some c.
Proof.
  revert i. induction l as [|x l IH]; intros i Hi Hbefore Hc; [done|].
  destruct i as [|i]; simpl in *.
  - injection Hi as ->. by rewrite Hc.
  - rewrite (Hbefore 0%nat x); [|lia|done].
    apply (IH i); [done| |done].
    intros j c' Hj Hl. apply (Hbefore (S j) c'); [lia|done].
Qed.

Lemma find_none_forallb {A} (f : A -> bool) (l : list A) :
  List.find (fun x => negb (f x)) l = None <-> forallb f l = true.
Proof.
  induction l as [|x l IH]; simpl; [done|].
  destruct (f x); simpl; [done|]. split; discriminate.
Qed.

(** ** Schema validation *)

Section ValidationFacts.

Variable py_str : json -> string.

Lemma is_substring_prefix (a b : string) : is_substring a (a +:+ b) = true.
Proof.
  assert (Hp : String.prefix a (a +:+ b) = true).
  { induction a as [|c a IH]; simpl; [by destruct b|].
    destruct (ascii_dec c c); [apply IH | congruence]. }
  destruct (a +:+ b); simpl in *; by rewrite Hp.
Qed.

Lemma is_substring_skip (n : string) c (b : string) : is_substring n b = true -> is_substring n (String c b) = true.
Proof. intros H. simpl. rewrite H. apply orb_true_r. Qed.

(** On records whose nested values are objects the code is the
    specification's rule. *)
Lemma validate_refines_spec (data : pydict) :
  nested_records_are_objects data = true ->
  validate_progress_schema py_str data = spec_validate py_str data.
Proof.
  unfold nested_records_are_objects, is_object_or_absent, validate_progress_schema,
    spec_validate, checks_in_order, dict_get_default.
  intros Hobj. apply andb_true_iff in Hobj as [Hcw Hls].
  cbn [app map List.find passes negb failure_message check_fields py_in
       REQUIRED_TOP_LEVEL REQUIRED_CURRENT_WORK REQUIRED_LAST_SESSION].
  unfold has_subkey, dict_mem, failure_message, dict_get_default.
  destruct (dict_get "version" data) as [v|]; [|reflexivity].
  destruct (py_ne_2 v); [reflexivity|].
  destruct (dict_get "project" data); [|reflexivity].
  destruct (dict_get "currentWork" data) as [cw|]; [|reflexivity].
  destruct (dict_get "lastSession" data) as [ls|]; [|reflexivity].
  destruct cw as [| | | | |?|cw]; try discriminate Hcw.
  destruct ls as [| | | | |?|ls]; try discriminate Hls.
  cbn [py_in]. unfold dict_mem.
  repeat match goal with
         | |- context [dict_get ?k ?d] => destruct (dict_get k d); [|reflexivity]
         end.
  reflexivity.
Qed.

Lemma spec_validate_exact (data : pydict) :
  raises_schema_error (spec_validate py_str data) <-> fully_populated_v2 data = false.
Proof.
  unfold raises_schema_error, spec_validate, fully_populated_v2.
  pose proof (find_none_forallb (passes data) checks_in_order) as Hfind.
  destruct (List.find _ checks_in_order) as [c|] eqn:Hc.
  - split; [|eauto]. intros _.
    destruct (forallb (passes data) checks_in_order); [|done].
    destruct Hfind as [_ Hfind]. by specialize (Hfind eq_refl).
  - destruct Hfind as [Hfind _]. rewrite (Hfind eq_refl).
    split; [intros [msg Hmsg]|]; discriminate.
Qed.

Lemma check_fields_without_featureId prefix (cw : pydict) :
  check_fields prefix (JDict (dict_remove "featureId" cw)) REQUIRED_CURRENT_WORK
  = check_fields prefix (JDict cw) REQUIRED_CURRENT_WORK.
Proof.
  unfold REQUIRED_CURRENT_WORK. cbn [check_fields py_in].
  by rewrite !dict_mem_remove_ne.
Qed.

(** C1 (as amended): on every record whose [currentWork] and [lastSession]
    values are objects, [validate_progress_schema] raises its schema error
    exactly when the record lacks a required field or its version differs
    from 2.  The checks run in the order version present, version equal to
    2, top-level keys, [currentWork] keys, [lastSession] keys, and the first
    check that fails gives the message, which names the field; a wrong
    version gives a message containing "version 2"; a fully populated
    version 2 record passes; and whether [featureId] is among the
    [currentWork] keys changes nothing. *)
Theorem validate_exact_on_object_records (data : pydict) :
  nested_records_are_objects data = true ->
  validation_is_exact py_str data
  /\ (fully_populated_v2 data = true -> validate_progress_schema py_str data = Ok tt)
  /\ (forall (i : nat) (c : check),
        checks_in_order !! i = Some c ->
        (forall (j : nat) (c' : check),
            (j < i)%nat -> checks_in_order !! j = Some c' -> passes data c' = true) ->
        passes data c = false ->
        validate_progress_schema py_str data
        = Raise (ProgressValidationError (failure_message py_str data c)))
  /\ (forall v, dict_get "version" data = Some v -> py_ne_2 v = true ->
        exists msg,
          validate_progress_schema py_str data = Raise (ProgressValidationError msg)
          /\ is_substring "version 2" msg = true)
  /\ (forall cw, dict_get "currentWork" data = Some (JDict cw) ->
        validate_progress_schema py_str
          (dict_set "currentWork" (JDict (dict_remove "featureId" cw)) data)
        = validate_progress_schema py_str data).
Proof.
  intros Hobj. pose proof (validate_refines_spec data Hobj) as Href.
  repeat split.
  - rewrite Href. apply spec_validate_exact.
  - rewrite Href. apply spec_validate_exact.
  - intros Hfull. rewrite Href. unfold spec_validate.
    apply find_none_forallb in Hfull. by rewrite Hfull.
  - intros i c Hi Hbefore Hc. rewrite Href. unfold spec_validate.
    rewrite (find_first _ checks_in_order i c); [done|done| |by rewrite Hc].
    intros j c' Hj Hl. by rewrite (Hbefore j c').
  - intros v Hv Hne. unfold validate_progress_schema. rewrite Hv, Hne.
    eexists; split; [reflexivity|].
    change ("Expected version 2, got " +:+ py_str v)
      with ("Expected " +:+ ("version 2" +:+ (", got " +:+ py_str v))).
    cbn [String.append]. do 9 apply is_substring_skip.
    apply is_substring_prefix.
  - intros cw Hcw. unfold validate_progress_schema, dict_get_default.
    unfold REQUIRED_TOP_LEVEL. cbn [check_fields py_in]. unfold dict_mem.
    rewrite dict_get_set_eq.
    rewrite !(dict_get_set_ne "currentWork") by discriminate.
    rewrite Hcw.
    destruct (dict_get "version" data) as [v|]; [|done].
    destruct (py_ne_2 v); [done|].
    destruct (dict_get "project" data); [|done].
    destruct (dict_get "lastSession" data); [|done].
    by rewrite check_fields_without_featureId.
Qed.

End ValidationFacts.

(** ** The progress store *)

Section TrackerFacts.

Variable isoformat : nat -> string.
Variable strftime_ymd : nat -> string.

(** Runs the glue of a computation down to the file operations. *)
Ltac run_glue :=
  repeat (progress (
    unfold bind, create_event, utcnow, ret, lift, set_session_events,
      del_session_events, get_session_events;
    cbn [fs _session_events clock py_setitem py_getitem py_get EventType_value
         default from_option id])).

(** Reads a key through the assignments made after loading. *)
Ltac dict_lookups :=
  repeat first [rewrite dict_get_set_eq | rewrite dict_get_set_ne by discriminate].

Lemma create_empty_progress_run project_name w :
  create_empty_progress isoformat strftime_ymd project_name w
  = (Ok (default_record project_name (isoformat (clock w) +:+ "Z")
           (strftime_ymd (S (clock w)))),
     mkWorld (fs w) (_session_events w) (S (S (clock w)))).
Proof. reflexivity. Qed.

Lemma load_absent path w :
  fs w !! path = None ->
  in_directory w path ->
  let d := default_record (name (parent path)) (isoformat (clock w) +:+ "Z")
             (strftime_ymd (S (clock w))) in
  _load_progress isoformat strftime_ymd path w
  = (Ok (JDict d),
     mkWorld (<[path := File (JsonText (JDict d))]> (fs w)) (_session_events w)
       (S (S (clock w)))).
Proof.
  intros Hnone Hdir. unfold _load_progress, bind, path_exists. rewrite Hnone.
  cbn [negb]. rewrite create_empty_progress_run.
  unfold write_text, dir_lookup. cbn [fs _session_events clock]. rewrite Hnone.
  unfold in_directory, is_directory, dir_lookup in Hdir. by rewrite Hdir.
Qed.

(** Where nothing is at the path and its directory is not there either,
    loading raises and writes nothing. *)
Lemma load_absent_fails path w :
  fs w !! path = None ->
  ~ in_directory w path ->
  exists e,
    _load_progress isoformat strftime_ymd path w
    = (Raise e, mkWorld (fs w) (_session_events w) (S (S (clock w)))).
Proof.
  intros Hnone Hdir. unfold _load_progress, bind, path_exists. rewrite Hnone.
  cbn [negb]. rewrite create_empty_progress_run.
  unfold write_text. cbn [fs _session_events clock]. rewrite Hnone.
  unfold in_directory, is_directory in Hdir.
  destruct (dir_lookup _ (parent path)) as [[|t]|]; [done|eauto|eauto].
Qed.

Lemma load_present path j w :
  fs w !! path = Some (File (JsonText j)) ->
  _load_progress isoformat strftime_ymd path w = (Ok j, w).
Proof.
  intros Hfile. unfold _load_progress, bind, path_exists, read_text.
  rewrite Hfile. cbn [negb]. rewrite Hfile. reflexivity.
Qed.

Lemma load_unreadable path w :
  fs w !! path = Some Dir \/ (exists raw, fs w !! path = Some (File (OtherText raw))) ->
  exists e, _load_progress isoformat strftime_ymd path w = (Raise e, w).
Proof.
  intros [Hfile|[raw Hfile]];
    unfold _load_progress, bind, path_exists, read_text;
    rewrite Hfile; cbn [negb]; rewrite Hfile; eexists; reflexivity.
Qed.

Lemma save_run path d w :
  is_file w path ->
  _save_progress isoformat path (JDict d) w
  = (Ok tt,
     mkWorld (<[path := File (JsonText (JDict
                 (dict_set "lastUpdated" (JStr (isoformat (clock w) +:+ "Z")) d)))]> (fs w))
       (_session_events w) (S (clock w))).
Proof.
  intros [text Hfile]. unfold _save_progress, bind, utcnow, lift, write_text.
  cbn [py_setitem fs _session_events clock]. by rewrite Hfile.
Qed.

(** Loading a usable path yields an object and leaves it in the file. *)
Lemma load_usable path w :
  usable w path ->
  exists d w1,
    _load_progress isoformat strftime_ymd path w = (Ok (JDict d), w1)
    /\ holds_record w1 path d
    /\ _session_events w1 = _session_events w
    /\ (forall p, p <> path -> fs w1 !! p = fs w !! p)
    /\ (holds_record w path d /\ w1 = w
        \/ fs w !! path = None
           /\ d = default_record (name (parent path)) (isoformat (clock w) +:+ "Z")
                    (strftime_ymd (S (clock w)))).
Proof.
  intros [[Hnone Hdir]|[d Hd]].
  - eexists _, _. split; [by apply load_absent|].
    unfold holds_record. cbn [fs _session_events].
    split; [by rewrite lookup_insert_eq|]. split; [done|].
    split; [|by right]. intros p Hp. by rewrite lookup_insert_ne.
  - exists d, w. split; [by apply load_present|]. repeat split; try done. by left.
Qed.

Lemma start_session_run path session_id w d w1 cw :
  _load_progress isoformat strftime_ymd path w = (Ok (JDict d), w1) ->
  is_file w1 path ->
  dict_get "currentWork" d = Some (JDict cw) ->
  start_session isoformat strftime_ymd path session_id w
  = (Ok tt,
     mkWorld
       (<[path := File (JsonText (JDict
            (dict_set "lastUpdated" (JStr (isoformat (S (clock w1)) +:+ "Z"))
               (dict_set "currentWork" (JDict (dict_set "type" (JStr "general") cw)) d))))]>
          (fs w1))
       (<[session_id := [mkEvent "session_start" (isoformat (clock w1) +:+ "Z") []]]>
          (_session_events w1))
       (S (S (clock w1)))).
Proof.
  intros Hload Hdir Hcw. unfold start_session, bind at 1. rewrite Hload.
  unfold bind at 1, lift at 1, py_getitem. rewrite Hcw.
  run_glue. by rewrite save_run.
Qed.

Lemma end_session_run path session_id duration_minutes summary commits next_steps w d w1 :
  _load_progress isoformat strftime_ymd path w = (Ok (JDict d), w1) ->
  is_file w1 path ->
  let ended := mkEvent "session_end" (isoformat (clock w1) +:+ "Z")
                 [("duration", JInt duration_minutes)] in
  let events := default [] (_session_events w1 !! session_id) ++ [ended] in
  let last_session :=
    [("date", JStr (strftime_ymd (S (clock w1))));
     ("duration_minutes", JInt duration_minutes);
     ("summary", JStr summary);
     ("events", JList (map (fun e => JDict (to_dict e)) events));
     ("commits", JList commits);
     ("nextSteps", JList (default [] next_steps))] in
  end_session isoformat strftime_ymd path session_id duration_minutes summary commits
    next_steps w
  = (Ok tt,
     mkWorld
       (<[path := File (JsonText (JDict
            (dict_set "lastUpdated" (JStr (isoformat (S (S (clock w1))) +:+ "Z"))
               (dict_set "currentWork" (JDict default_current_work)
                  (dict_set "lastSession" (JDict last_session) d)))))]> (fs w1))
       (delete session_id (_session_events w1))
       (S (S (S (clock w1))))).
Proof.
  intros Hload Hdir ended events last_session.
  assert (Hnext : match next_steps with Some (s :: rest) => s :: rest | _ => [] end
                  = default [] next_steps) by (by destruct next_steps as [[|??]|]).
  unfold end_session, bind at 1. rewrite Hload.
  unfold bind at 1, get_session_events at 1. rewrite Hnext.
  subst last_session events ended.
  destruct (_session_events w1 !! session_id) as [stored|] eqn:Hbuf;
    run_glue; rewrite save_run by done; cbn [fs _session_events clock].
  - by rewrite delete_insert_eq.
  - by rewrite delete_id.
Qed.

Lemma add_event_run path session_id event_type kwargs w :
  add_event isoformat path session_id event_type kwargs w
  = (Ok tt,
     mkWorld (fs w)
       (<[session_id := default [] (_session_events w !! session_id)
            ++ [mkEvent (EventType_value event_type) (isoformat (clock w) +:+ "Z") kwargs]]>
          (_session_events w))
       (S (clock w))).
Proof.
  unfold add_event, bind at 1, get_session_events at 1.
  destruct (_session_events w !! session_id) as [events|] eqn:Hbuf.
  - run_glue. rewrite Hbuf. reflexivity.
  - run_glue. rewrite lookup_insert_eq. run_glue. by rewrite insert_insert_eq.
Qed.

(** A session that started left a record in the file and a buffer holding
    the start event. *)
Lemma start_session_ok path session_id w w1 :
  start_session isoformat strftime_ymd path session_id w = (Ok tt, w1) ->
  exists d started_at,
    holds_record w1 path d
    /\ _session_events w1 !! session_id = Some [mkEvent "session_start" started_at []].
Proof.
  intros Hrun.
  assert (Hfrom : forall d w0 cw,
    _load_progress isoformat strftime_ymd path w = (Ok (JDict d), w0) ->
    is_file w0 path ->
    dict_get "currentWork" d = Some (JDict cw) ->
    exists d' started_at,
      holds_record w1 path d'
      /\ _session_events w1 !! session_id = Some [mkEvent "session_start" started_at []]).
  { intros d w0 cw Hload Hdir Hcw.
    rewrite (start_session_run path session_id w d w0 cw Hload Hdir Hcw) in Hrun.
    injection Hrun as <-. eexists _, _. unfold holds_record. cbn [fs _session_events].
    by rewrite !lookup_insert_eq. }
  destruct (fs w !! path) as [[|[j|raw]]|] eqn:Hfile.
  - destruct (load_unreadable path w) as [e Hload]; [by left|].
    unfold start_session, bind in Hrun. by rewrite Hload in Hrun.
  - pose proof (load_present path j w Hfile) as Hload.
    destruct j as [| | | | | |d];
      try (unfold start_session, bind in Hrun; rewrite Hload in Hrun; discriminate Hrun).
    destruct (dict_get "currentWork" d) as [cw|] eqn:Hcw;
      [|unfold start_session, bind in Hrun; rewrite Hload in Hrun;
        unfold lift, py_getitem in Hrun; by rewrite Hcw in Hrun].
    destruct cw as [| | | | | |cw];
      try (unfold start_session, bind in Hrun; rewrite Hload in Hrun;
           unfold lift, py_getitem in Hrun; rewrite Hcw in Hrun; discriminate Hrun).
    apply (Hfrom d w cw Hload); [eexists; exact Hfile|done].
  - destruct (load_unreadable path w) as [e Hload]; [right; by exists raw|].
    unfold start_session, bind in Hrun. by rewrite Hload in Hrun.
  - destruct (dir_lookup w (parent path)) as [[|text]|] eqn:Hdir.
    + pose proof (load_absent path w Hfile Hdir) as Hload. cbv zeta in Hload.
      eapply Hfrom; [exact Hload| |reflexivity].
      eexists. cbn [fs]. by rewrite lookup_insert_eq.
    + destruct (load_absent_fails path w Hfile) as [e Hload];
        [unfold in_directory, is_directory; by rewrite Hdir|].
      unfold start_session, bind in Hrun. by rewrite Hload in Hrun.
    + destruct (load_absent_fails path w Hfile) as [e Hload];
        [unfold in_directory, is_directory; by rewrite Hdir|].
      unfold start_session, bind in Hrun. by rewrite Hload in Hrun.
Qed.

Lemma end_session_after_load path session_id duration_minutes summary commits next_steps
    w d :
  holds_record w path d ->
  exists w' d' ended_at,
    end_session isoformat strftime_ymd path session_id duration_minutes summary commits
      next_steps w = (Ok tt, w')
    /\ holds_record w' path d'
    /\ nested_get "lastSession" "duration_minutes" d' = Some (JInt duration_minutes)
    /\ nested_get "lastSession" "summary" d' = Some (JStr summary)
    /\ nested_get "lastSession" "commits" d' = Some (JList commits)
    /\ nested_get "lastSession" "events" d'
       = Some (JList (map (fun e => JDict (to_dict e))
                 (default [] (_session_events w !! session_id)
                  ++ [mkEvent "session_end" ended_at [("duration", JInt duration_minutes)]])))
    /\ dict_get "currentWork" d' = Some (JDict default_current_work)
    /\ _session_events w' !! session_id = None.
Proof.
  intros Hd. eexists _, _, _.
  rewrite (end_session_run path session_id duration_minutes summary commits next_steps
             w d w (load_present path (JDict d) w Hd)) by (eexists; exact Hd).
  split; [reflexivity|]. unfold holds_record, nested_get. cbn [fs _session_events].
  split; [by rewrite lookup_insert_eq|].
  dict_lookups. cbn [dict_get String.eqb Ascii.eqb Bool.eqb].
  do 5 (split; [reflexivity|]). by rewrite lookup_delete_eq.
Qed.

(** C2: on a path where nothing is (in a directory that is there), or that
    holds a fresh default record,
    [start_session] followed by [end_session] succeeds and leaves a record
    whose last session has the given duration, summary and commits, and
    whose current work is the general one with every payload field null. *)
Theorem session_lifecycle path session_id duration_minutes summary commits w :
  (fs w !! path = None /\ in_directory w path) \/ holds_fresh_default w path ->
  exists w' d,
    (do* start_session isoformat strftime_ymd path session_id then
     end_session isoformat strftime_ymd path session_id duration_minutes summary commits
       None) w = (Ok tt, w')
    /\ holds_record w' path d
    /\ nested_get "lastSession" "duration_minutes" d = Some (JInt duration_minutes)
    /\ nested_get "lastSession" "summary" d = Some (JStr summary)
    /\ nested_get "lastSession" "commits" d = Some (JList commits)
    /\ dict_get "currentWork" d
       = Some (JDict [("type", JStr "general"); ("plan", JNull); ("planTask", JNull);
                      ("debugIssue", JNull); ("debugPhase", JNull)]).
Proof.
  intros Hfresh.
  assert (Hstart : exists d1 w1,
    start_session isoformat strftime_ymd path session_id w = (Ok tt, w1)
    /\ holds_record w1 path d1).
  { destruct Hfresh as [[Hnone Hdir]|(project_name & last_updated & today & Hd)].
    - eexists _, _. split.
      + eapply start_session_run; [by apply load_absent| |reflexivity].
        eexists. cbn [fs]. by rewrite lookup_insert_eq.
      + unfold holds_record. cbn [fs]. by rewrite lookup_insert_eq.
    - eexists _, _. split.
      + eapply start_session_run; [by apply load_present| |reflexivity].
        eexists. exact Hd.
      + unfold holds_record. cbn [fs]. by rewrite lookup_insert_eq. }
  destruct Hstart as (d1 & w1 & Hstart & Hd1).
  destruct (end_session_after_load path session_id duration_minutes summary commits None
              w1 d1 Hd1) as (w' & d' & ended_at & Hend & Hd' & Hdur & Hsum & Hcom & _ & Hcw & _).
  exists w', d'. unfold bind. rewrite Hstart. done.
Qed.

(** C3: after a successful [start_session] and two [add_event] calls,
    [end_session] writes exactly four events: the start event, the two added
    events in the order they were added, and the end event carrying the
    duration. *)
Theorem events_flushed_in_order path session_id type1 kwargs1 type2 kwargs2
    duration_minutes summary commits next_steps w w1 :
  start_session isoformat strftime_ymd path session_id w = (Ok tt, w1) ->
  exists w2 w3 w4 d t0 t1 t2 t3,
    add_event isoformat path session_id type1 kwargs1 w1 = (Ok tt, w2)
    /\ add_event isoformat path session_id type2 kwargs2 w2 = (Ok tt, w3)
    /\ end_session isoformat strftime_ymd path session_id duration_minutes summary
         commits next_steps w3 = (Ok tt, w4)
    /\ holds_record w4 path d
    /\ nested_get "lastSession" "events" d
       = Some (JList
           [JDict [("type", JStr "session_start"); ("timestamp", JStr t0)];
            JDict (to_dict (mkEvent (EventType_value type1) t1 kwargs1));
            JDict (to_dict (mkEvent (EventType_value type2) t2 kwargs2));
            JDict [("type", JStr "session_end"); ("timestamp", JStr t3);
                   ("duration", JInt duration_minutes)]]).
Proof.
  intros Hstart.
  destruct (start_session_ok path session_id w w1 Hstart) as (d1 & t0 & Hd1 & Hbuf).
  pose proof (add_event_run path session_id type1 kwargs1 w1) as Hadd1.
  rewrite Hbuf in Hadd1. cbn [default from_option id app] in Hadd1.
  match type of Hadd1 with _ = (_, ?w') => set (w2 := w') in * end.
  pose proof (add_event_run path session_id type2 kwargs2 w2) as Hadd2.
  assert (Hbuf2 : _session_events w2 !! session_id
                  = Some [mkEvent "session_start" t0 [];
                          mkEvent (EventType_value type1) (isoformat (clock w1) +:+ "Z")
                            kwargs1])
    by (subst w2; cbn [_session_events]; by rewrite lookup_insert_eq).
  rewrite Hbuf2 in Hadd2. cbn [default from_option id app] in Hadd2.
  match type of Hadd2 with _ = (_, ?w') => set (w3 := w') in * end.
  assert (Hd3 : holds_record w3 path d1) by exact Hd1.
  destruct (end_session_after_load path session_id duration_minutes summary commits
              next_steps w3 d1 Hd3)
    as (w4 & d & t3 & Hend & Hd & _ & _ & _ & Hevents & _).
  exists w2, w3, w4, d, t0. eexists _, _, t3.
  split; [exact Hadd1|]. split; [exact Hadd2|]. split; [exact Hend|]. split; [exact Hd|].
  rewrite Hevents. subst w3. cbn [_session_events]. rewrite lookup_insert_eq. reflexivity.
Qed.

(** C9: [end_session] for a session that has no buffer (never started, no
    event added) succeeds on a usable path (a file holding an object, or
    nothing in a directory that is there), and the last session it writes
    has the end event as its only event. *)
Theorem end_session_without_start path session_id duration_minutes summary commits
    next_steps w :
  _session_events w !! session_id = None ->
  usable w path ->
  exists w' d ended_at,
    end_session isoformat strftime_ymd path session_id duration_minutes summary commits
      next_steps w = (Ok tt, w')
    /\ holds_record w' path d
    /\ nested_get "lastSession" "events" d
       = Some (JList [JDict [("type", JStr "session_end"); ("timestamp", JStr ended_at);
                             ("duration", JInt duration_minutes)]])
    /\ _session_events w' !! session_id = None.
Proof.
  intros Hbuf Husable.
  destruct (load_usable path w Husable) as (d & w1 & Hload & Hd & Hev & _ & _).
  eexists _, _, _.
  rewrite (end_session_run path session_id duration_minutes summary commits next_steps
             w d w1 Hload) by (eexists; exact Hd).
  split; [reflexivity|]. unfold holds_record, nested_get. cbn [fs _session_events].
  split; [by rewrite lookup_insert_eq|].
  dict_lookups. rewrite Hev, Hbuf. split; [reflexivity|]. by rewrite lookup_delete_eq.
Qed.

(** C7 (as amended): on a usable path (a file holding an object, or
    nothing in a directory that is there) [set_current_work] replaces
    [currentWork] by the record of exactly the six keys [type], [plan],
    [planTask], [debugIssue], [debugPhase] and [featureId], holding the
    tag of the work type and the arguments as passed, null for an argument
    that is left out; [get_current_work] then returns that record. *)
Theorem set_current_work_stores_arguments path work_type plan plan_task debug_issue
    debug_phase feature_id w :
  usable w path ->
  let cw := work_record work_type plan plan_task debug_issue debug_phase feature_id in
  exists w' d,
    set_current_work isoformat strftime_ymd path work_type plan plan_task debug_issue
      debug_phase feature_id w = (Ok tt, w')
    /\ holds_record w' path d
    /\ dict_get "currentWork" d = Some (JDict cw)
    /\ get_current_work isoformat strftime_ymd path w' = (Ok (JDict cw), w')
    /\ dict_keys cw = ["type"; "plan"; "planTask"; "debugIssue"; "debugPhase"; "featureId"]
    /\ dict_get "type" cw = Some (JStr (WorkType_value work_type))
    /\ dict_get "plan" cw = Some (opt_str plan)
    /\ dict_get "planTask" cw = Some (opt_int plan_task)
    /\ dict_get "debugIssue" cw = Some (opt_str debug_issue)
    /\ dict_get "debugPhase" cw = Some (opt_str debug_phase)
    /\ dict_get "featureId" cw = Some (opt_str feature_id).
Proof.
  intros Husable cw.
  destruct (load_usable path w Husable) as (d & w1 & Hload & Hd & _).
  eexists _, _. unfold set_current_work, bind at 1. rewrite Hload.
  unfold bind at 1, lift at 1. cbn [py_setitem].
  rewrite save_run by (eexists; exact Hd).
  split; [reflexivity|]. unfold holds_record. cbn [fs].
  split; [by rewrite lookup_insert_eq|].
  split; [by dict_lookups|].
  split; [|by repeat split].
  unfold get_current_work, bind.
  erewrite load_present; [|cbn [fs]; by rewrite lookup_insert_eq].
  unfold lift, py_get, dict_get_default. by dict_lookups.
Qed.

Lemma walk_up_step part up w :
  walk_up (part :: up) w
  = if has_file w (part :: up) then (Ok (Found ((part :: up) // PROGRESS_FILENAME)), w)
    else if has_git w (part :: up) then (Ok GitRoot, w)
    else walk_up up w.
Proof.
  cbn [walk_up]. unfold bind, path_exists, has_file, has_git, PROGRESS_FILENAME.
  destruct (fs w !! _) as [n|]; [reflexivity|].
  destruct (fs w !! _) as [n|]; reflexivity.
Qed.

Lemma clear_below_tail w part up k :
  clear_below w (part :: up) (S k) -> clear_below w up k.
Proof. intros Hclear j Hj. apply (Hclear (S j)). lia. Qed.

Lemma walk_up_found w cwd k :
  (k < length cwd)%nat ->
  clear_below w cwd k ->
  has_file w (nth_parent k cwd) = true ->
  walk_up cwd w = (Ok (Found (nth_parent k cwd // PROGRESS_FILENAME)), w).
Proof.
  revert k. induction cwd as [|part up IH]; intros k Hk Hclear Hfile; [simpl in Hk; lia|].
  rewrite walk_up_step. destruct k as [|k].
  - unfold nth_parent in *. cbn [drop] in *. by rewrite Hfile.
  - destruct (Hclear 0%nat) as [Hf Hg]; [lia|]. unfold nth_parent in Hf, Hg.
    cbn [drop] in Hf, Hg. rewrite Hf, Hg.
    apply IH; [simpl in Hk; lia|by eapply clear_below_tail|done].
Qed.

Lemma walk_up_git_root w cwd k :
  (k < length cwd)%nat ->
  clear_below w cwd k ->
  has_file w (nth_parent k cwd) = false ->
  has_git w (nth_parent k cwd) = true ->
  walk_up cwd w = (Ok GitRoot, w).
Proof.
  revert k. induction cwd as [|part up IH]; intros k Hk Hclear Hfile Hgit;
    [simpl in Hk; lia|].
  rewrite walk_up_step. destruct k as [|k].
  - unfold nth_parent in *. cbn [drop] in *. by rewrite Hfile, Hgit.
  - destruct (Hclear 0%nat) as [Hf Hg]; [lia|]. unfold nth_parent in Hf, Hg.
    cbn [drop] in Hf, Hg. rewrite Hf, Hg.
    apply (IH k); [simpl in Hk; lia|by eapply clear_below_tail|done|done].
Qed.

Lemma walk_up_anchor w cwd :
  clear_below w cwd (length cwd) ->
  walk_up cwd w = (Ok Anchor, w).
Proof.
  induction cwd as [|part up IH]; intros Hclear; [reflexivity|].
  rewrite walk_up_step.
  destruct (Hclear 0%nat) as [Hf Hg]; [simpl; lia|]. unfold nth_parent in Hf, Hg.
  cbn [drop] in Hf, Hg. rewrite Hf, Hg.
  apply IH. by eapply clear_below_tail.
Qed.

Lemma find_not_found cwd create_if_missing w (exit : walk_exit) :
  has_file w cwd = false ->
  walk_up cwd w = (Ok exit, w) ->
  exit = GitRoot \/ exit = Anchor ->
  (create_if_missing = true -> is_directory w cwd) ->
  find_progress_file isoformat strftime_ymd cwd create_if_missing w
  = when_not_found isoformat strftime_ymd cwd create_if_missing w.
Proof.
  intros Hhere Hwalk Hexit Hdir. unfold find_progress_file, bind at 1, path_exists at 1.
  unfold has_file in Hhere. unfold PROGRESS_FILENAME.
  destruct (fs w !! (cwd // "project-progress.json")) as [n|] eqn:Hnone; [done|].
  unfold bind at 1. rewrite Hwalk. unfold when_not_found.
  assert (Hcreate :
    (if create_if_missing
     then let* data := create_empty_progress isoformat strftime_ymd (name cwd) in
          do* write_text (cwd // "project-progress.json") (json_dumps (JDict data)) then
          ret (Some (cwd // "project-progress.json"))
     else ret None) w
    = if create_if_missing
      then (Ok (Some (cwd // "project-progress.json")),
            mkWorld
              (<[cwd // "project-progress.json" :=
                   File (JsonText (JDict (default_record (name cwd)
                     (isoformat (clock w) +:+ "Z") (strftime_ymd (S (clock w))))))]> (fs w))
              (_session_events w) (S (S (clock w))))
      else (Ok None, w)).
  { destruct create_if_missing; [|reflexivity].
    unfold bind. rewrite create_empty_progress_run. unfold write_text.
    cbn [fs _session_events clock parent joinpath tail]. rewrite Hnone.
    specialize (Hdir eq_refl). unfold is_directory, dir_lookup in Hdir.
    unfold dir_lookup. cbn [fs]. by rewrite Hdir. }
  destruct Hexit as [->| ->]; exact Hcreate.
Qed.

(** C6: [find_progress_file] returns the file of [cwd] when [cwd] has it;
    otherwise it goes up through the parents of [cwd], looking in each
    directory first for the file and then for the [.git] marker: it returns
    the file of the first directory that has it, and finds nothing once it
    has looked in a directory with the marker or has arrived at the anchor,
    which it does not look in.  In a tree with the marker in [root] and no
    file in [root] and [root/sub], resolving from [root/sub] without
    creation returns nothing, whatever [root/other] holds.  When nothing is
    found it writes a default record to the file of [cwd], a directory that
    is there, and returns that path if asked to create, and returns nothing
    otherwise. *)
Theorem find_progress_file_resolution cwd create_if_missing w :
  (has_file w cwd = true ->
     find_progress_file isoformat strftime_ymd cwd create_if_missing w
     = (Ok (Some (cwd // PROGRESS_FILENAME)), w))
  /\ (forall k, (k < length cwd)%nat ->
        clear_below w cwd k ->
        has_file w (nth_parent k cwd) = true ->
        find_progress_file isoformat strftime_ymd cwd create_if_missing w
        = (Ok (Some (nth_parent k cwd // PROGRESS_FILENAME)), w))
  /\ (forall k, (k < length cwd)%nat ->
        clear_below w cwd k ->
        has_file w (nth_parent k cwd) = false ->
        has_git w (nth_parent k cwd) = true ->
        (create_if_missing = true -> is_directory w cwd) ->
        find_progress_file isoformat strftime_ymd cwd create_if_missing w
        = when_not_found isoformat strftime_ymd cwd create_if_missing w)
  /\ (has_file w cwd = false ->
      clear_below w cwd (length cwd) ->
      (create_if_missing = true -> is_directory w cwd) ->
      find_progress_file isoformat strftime_ymd cwd create_if_missing w
      = when_not_found isoformat strftime_ymd cwd create_if_missing w)
  /\ (forall root,
        cwd = root // "sub" ->
        has_file w (root // "sub") = false ->
        has_git w (root // "sub") = false ->
        has_file w root = false ->
        has_git w root = true ->
        find_progress_file isoformat strftime_ymd cwd false w = (Ok None, w)).
Proof.
  assert (Hhere : has_file w cwd = true ->
     find_progress_file isoformat strftime_ymd cwd create_if_missing w
     = (Ok (Some (cwd // PROGRESS_FILENAME)), w)).
  { intros Hfile. unfold find_progress_file, bind, path_exists.
    unfold has_file in Hfile. unfold PROGRESS_FILENAME.
    by destruct (fs w !! (cwd // "project-progress.json")). }
  assert (Hclear0 : forall k, (0 < k)%nat -> clear_below w cwd k -> has_file w cwd = false).
  { intros k Hk Hclear. destruct (Hclear 0%nat Hk) as [Hf _]. exact Hf. }
  split; [exact Hhere|]. split; [|split; [|split]].
  - intros k Hk Hclear Hfile. destruct k as [|k]; [by apply Hhere|].
    unfold find_progress_file, bind at 1, path_exists at 1.
    pose proof (Hclear0 (S k) ltac:(lia) Hclear) as Hnone. unfold has_file in Hnone.
    unfold PROGRESS_FILENAME at 1.
    destruct (fs w !! (cwd // "project-progress.json")); [done|].
    unfold bind. by rewrite (walk_up_found w cwd (S k)).
  - intros k Hk Hclear Hfile Hgit Hdir.
    apply (find_not_found cwd create_if_missing w GitRoot);
      [|by eapply walk_up_git_root|by left|exact Hdir].
    destruct k as [|k]; [exact Hfile|]. apply (Hclear0 (S k)); [lia|done].
  - intros Hfile Hclear Hdir.
    apply (find_not_found cwd create_if_missing w Anchor);
      [done|by apply walk_up_anchor|by right|exact Hdir].
  - intros root -> Hfsub Hgsub Hfroot Hgroot.
    destruct root as [|part up].
    + apply (find_not_found _ false w Anchor); [done| |by right|discriminate].
      unfold joinpath in *. rewrite walk_up_step, Hfsub, Hgsub. reflexivity.
    + apply (find_not_found _ false w GitRoot); [done| |by left|discriminate].
      unfold joinpath in *.
      rewrite walk_up_step, Hfsub, Hgsub, walk_up_step, Hfroot, Hgroot. reflexivity.
Qed.

(** C5 (as amended): where nothing is at the path and the directory that
    contains it is there, [_load_progress] returns the default
    record (version 2, project named after the containing directory, work
    type general) and writes it to the path, creating that one file; a
    second load returns the same record and leaves the world as the first
    load left it. *)
Theorem load_creates_once path w :
  fs w !! path = None ->
  in_directory w path ->
  exists d w1,
    _load_progress isoformat strftime_ymd path w = (Ok (JDict d), w1)
    /\ d = default_record (name (parent path)) (isoformat (clock w) +:+ "Z")
             (strftime_ymd (S (clock w)))
    /\ dict_get "version" d = Some (JInt 2)
    /\ dict_get "project" d = Some (JStr (name (parent path)))
    /\ nested_get "currentWork" "type" d = Some (JStr "general")
    /\ fs w1 = <[path := File (JsonText (JDict d))]> (fs w)
    /\ _load_progress isoformat strftime_ymd path w1 = (Ok (JDict d), w1).
Proof.
  intros Hnone Hdir. eexists _, _. split; [by apply load_absent|].
  split; [reflexivity|]. do 4 (split; [reflexivity|]).
  apply load_present. cbn [fs]. by rewrite lookup_insert_eq.
Qed.

(** C10 (as amended): [get_current_work] on a path where nothing is, in a
    directory that is there, creates the default
    record file and returns the default work state; on a file holding a
    record it returns the record's [currentWork] and changes nothing. *)
Theorem get_current_work_loads_or_creates path w :
  (fs w !! path = None ->
     in_directory w path ->
     exists d w1,
       get_current_work isoformat strftime_ymd path w
       = (Ok (JDict [("type", JStr "general"); ("plan", JNull); ("planTask", JNull);
                     ("debugIssue", JNull); ("debugPhase", JNull)]), w1)
       /\ d = default_record (name (parent path)) (isoformat (clock w) +:+ "Z")
                (strftime_ymd (S (clock w)))
       /\ fs w1 = <[path := File (JsonText (JDict d))]> (fs w)
       /\ fs w1 !! path <> fs w !! path)
  /\ (forall d cw,
        holds_record w path d ->
        dict_get "currentWork" d = Some cw ->
        get_current_work isoformat strftime_ymd path w = (Ok cw, w)).
Proof.
  split.
  - intros Hnone Hdir. eexists _, _. unfold get_current_work, bind.
    rewrite (load_absent path w Hnone Hdir). split; [reflexivity|].
    split; [reflexivity|]. split; [reflexivity|].
    cbn [fs]. rewrite lookup_insert_eq, Hnone. discriminate.
  - intros d cw Hd Hcw. unfold get_current_work, bind.
    rewrite (load_present path (JDict d) w Hd).
    unfold lift, py_get, dict_get_default. by rewrite Hcw.
Qed.

(** C4: loading a record and saving it back changes the [lastUpdated]
    field only: the file holds the same keys with the same values in the
    same order, apart from [lastUpdated], and no other file and no session
    buffer changes. *)
Theorem save_load_roundtrip path d w :
  holds_record w path d ->
  exists d' w',
    (let* data := _load_progress isoformat strftime_ymd path in
     _save_progress isoformat path data) w = (Ok tt, w')
    /\ holds_record w' path d'
    /\ (forall k, k <> "lastUpdated" -> dict_get k d' = dict_get k d)
    /\ dict_remove "lastUpdated" d' = dict_remove "lastUpdated" d
    /\ dict_get "lastUpdated" d' = Some (JStr (isoformat (clock w) +:+ "Z"))
    /\ (forall p, p <> path -> fs w' !! p = fs w !! p)
    /\ _session_events w' = _session_events w.
Proof.
  intros Hd. eexists _, _. unfold bind.
  rewrite (load_present path (JDict d) w Hd).
  rewrite save_run by (eexists; exact Hd).
  split; [reflexivity|]. unfold holds_record. cbn [fs _session_events].
  split; [by rewrite lookup_insert_eq|].
  split; [intros k Hk; by apply dict_get_set_ne|].
  split; [apply dict_remove_set|].
  split; [apply dict_get_set_eq|].
  split; [|done]. intros p Hp. by rewrite lookup_insert_ne.
Qed.

(** C8: [add_event] always succeeds, appends exactly one event to the
    buffer of the session (an empty buffer when the session has none),
    leaves every file as it is, and does the same whatever the files are. *)
Theorem add_event_touches_buffer_only path session_id event_type kwargs w :
  let event := mkEvent (EventType_value event_type) (isoformat (clock w) +:+ "Z") kwargs in
  let buffer := default [] (_session_events w !! session_id) in
  add_event isoformat path session_id event_type kwargs w
  = (Ok tt, mkWorld (fs w) (<[session_id := buffer ++ [event]]> (_session_events w))
              (S (clock w)))
  /\ (forall files,
        add_event isoformat path session_id event_type kwargs
          (mkWorld files (_session_events w) (clock w))
        = (Ok tt, mkWorld files (<[session_id := buffer ++ [event]]> (_session_events w))
                    (S (clock w)))).
Proof.
  split; [apply add_event_run|]. intros files.
  apply (add_event_run path session_id event_type kwargs (mkWorld files _ _)).
Qed.

End TrackerFacts.

(** ** Events and their dictionaries *)

Lemma dict_get_None (k : string) (d : pydict) :
  dict_get k d = None <-> k ∉ dict_keys d.
Proof.
  induction d as [|[k' v] d IH]; cbn [dict_get dict_keys map fst].
  - split; [intros _; apply not_elem_of_nil|done].
  - rewrite not_elem_of_cons. destruct (String.eqb_spec k k') as [->|Hne].
    + split; [discriminate|]. by intros [Hk _].
    + rewrite IH. unfold dict_keys. split; [by intros Hd|by intros [_ Hd]].
Qed.

Lemma dict_set_fresh (k : string) (v : json) (d : pydict) :
  dict_get k d = None -> dict_set k v d = d ++ [(k, v)].
Proof.
  induction d as [|[k' v'] d IH]; cbn [dict_get dict_set app]; [done|].
  destruct (String.eqb k k'); [discriminate|]. intros Hnone. by rewrite IH.
Qed.

Lemma dict_get_app (k : string) (d1 d2 : pydict) :
  dict_get k (d1 ++ d2)
  = match dict_get k d1 with Some v => Some v | None => dict_get k d2 end.
Proof.
  induction d1 as [|[k' v'] d1 IH]; cbn [dict_get app]; [done|].
  by destruct (String.eqb k k').
Qed.

(** Looking a key up after [update]: the argument of [update] wins. *)
Lemma dict_get_update (k : string) (d other : pydict) :
  NoDup (dict_keys other) ->
  dict_get k (dict_update d other)
  = match dict_get k other with Some v => Some v | None => dict_get k d end.
Proof.
  unfold dict_update. revert d.
  induction other as [|[k0 v0] other IH]; intros d Hnodup; cbn [fold_left dict_get fst snd];
    [done|].
  cbn [dict_keys map fst] in Hnodup. apply NoDup_cons in Hnodup as [Hfresh Hnodup].
  rewrite (IH _ Hnodup). destruct (String.eqb_spec k k0) as [->|Hne].
  - apply dict_get_None in Hfresh. by rewrite Hfresh, dict_get_set_eq.
  - rewrite dict_get_set_ne by done. done.
Qed.

(** [update] with keys the dictionary does not have appends them. *)
Lemma dict_update_fresh (d other : pydict) :
  NoDup (dict_keys other) ->
  (forall k, k ∈ dict_keys other -> dict_get k d = None) ->
  dict_update d other = d ++ other.
Proof.
  unfold dict_update. revert d.
  induction other as [|[k0 v0] other IH]; intros d Hnodup Hfresh; cbn [fold_left fst snd].
  - by rewrite app_nil_r.
  - cbn [dict_keys map fst] in Hnodup, Hfresh.
    apply NoDup_cons in Hnodup as [Hk0 Hnodup].
    rewrite dict_set_fresh by (apply Hfresh; left).
    rewrite IH; [by rewrite <- app_assoc|done|].
    intros k Hk. rewrite dict_get_app, (Hfresh k) by (by right).
    cbn [dict_get]. destruct (String.eqb_spec k k0) as [->|Hne]; [done|done].
Qed.

Lemma dict_pop_None (k : string) (d : pydict) :
  dict_pop k d = None <-> dict_get k d = None.
Proof.
  induction d as [|[k' v] d IH]; cbn [dict_pop dict_get]; [done|].
  destruct (String.eqb k k'); [done|].
  destruct (dict_pop k d) as [[x r]|]; [|tauto].
  split; [discriminate|]. intros Hnone. apply IH in Hnone. discriminate.
Qed.

Lemma dict_pop_Some (k : string) (d : pydict) (v : json) (r : pydict) :
  dict_pop k d = Some (v, r) ->
  dict_get k d = Some v
  /\ (forall k', k' <> k -> dict_get k' r = dict_get k' d)
  /\ (forall k', k' ∈ dict_keys r -> k' ∈ dict_keys d)
  /\ (NoDup (dict_keys d) -> NoDup (dict_keys r) /\ dict_get k r = None).
Proof.
  revert v r. induction d as [|[k0 v0] d IH]; intros v r; cbn [dict_pop dict_get]; [done|].
  destruct (String.eqb_spec k k0) as [->|Hne].
  - intros [= <- <-]. split; [done|]. split.
    + intros k' Hk'. cbn [dict_get]. by destruct (String.eqb_spec k' k0).
    + split; [intros k' Hk'; cbn [dict_keys map fst]; by right|].
      cbn [dict_keys map fst]. intros Hnodup. apply NoDup_cons in Hnodup as [Hk Hnodup].
      split; [done|]. by apply dict_get_None.
  - destruct (dict_pop k d) as [[x r']|] eqn:Hpop; [|done].
    intros [= <- <-]. destruct (IH x r' eq_refl) as (Hget & Hother & Hsub & Hnd).
    split; [done|]. split.
    + intros k' Hk'. cbn [dict_get]. destruct (String.eqb k' k0); [done|by apply Hother].
    + split.
      * intros k'. cbn [dict_keys map fst]. rewrite !elem_of_cons.
        intros [->|Hin]; [by left|right; by apply Hsub].
      * cbn [dict_keys map fst]. intros Hnodup.
        apply NoDup_cons in Hnodup as [Hk0 Hnodup]. destruct (Hnd Hnodup) as [Hr Hnone].
        split.
        -- apply NoDup_cons. split; [|done]. intros Hin. apply Hk0. by apply Hsub.
        -- cbn [dict_get]. by destruct (String.eqb_spec k k0).
Qed.

(** X2: in the dictionary of an event a payload key named [type] or
    [timestamp] replaces the event's own type or timestamp; every other key
    is the payload's. *)
Theorem to_dict_payload_wins (e : ProgressEvent) (k : string) :
  NoDup (dict_keys (data e)) ->
  dict_get k (to_dict e)
  = match dict_get k (data e) with
    | Some v => Some v
    | None =>
        if String.eqb k "type" then Some (JStr (type e))
        else if String.eqb k "timestamp" then Some (JStr (timestamp e))
        else None
    end.
Proof.
  intros Hnodup. unfold to_dict. rewrite dict_get_update by done.
  destruct (dict_get k (data e)); [done|]. cbn [dict_get].
  destruct (String.eqb k "type"); [done|]. by destruct (String.eqb k "timestamp").
Qed.

Lemma to_dict_plain (e : ProgressEvent) :
  NoDup (dict_keys (data e)) ->
  dict_get "type" (data e) = None ->
  dict_get "timestamp" (data e) = None ->
  to_dict e = [("type", JStr (type e)); ("timestamp", JStr (timestamp e))] ++ data e.
Proof.
  intros Hnodup Htype Htime. unfold to_dict. apply dict_update_fresh; [done|].
  intros k Hk. cbn [dict_get].
  destruct (String.eqb_spec k "type") as [->|_];
    [by apply dict_get_None in Htype|].
  destruct (String.eqb_spec k "timestamp") as [->|_];
    [by apply dict_get_None in Htime|done].
Qed.

(** X1: an event whose payload uses neither [type] nor [timestamp] as a key
    is read back from its dictionary as it was. *)
Theorem from_dict_to_dict (e : ProgressEvent) :
  NoDup (dict_keys (data e)) ->
  dict_get "type" (data e) = None ->
  dict_get "timestamp" (data e) = None ->
  from_dict (to_dict e) = Ok (JStr (type e), JStr (timestamp e), data e).
Proof.
  intros Hnodup Htype Htime. by rewrite to_dict_plain.
Qed.

(** X3: [from_dict] raises [KeyError] for [type] when the dictionary has no
    [type], for [timestamp] when it has a [type] but no [timestamp], and
    otherwise returns the two values with the remaining keys as payload. *)
Theorem from_dict_outcome (d : pydict) :
  match dict_get "type" d, dict_get "timestamp" d with
  | None, _ => from_dict d = Raise (KeyError "type")
  | Some _, None => from_dict d = Raise (KeyError "timestamp")
  | Some event_type, Some time =>
      exists payload,
        from_dict d = Ok (event_type, time, payload)
        /\ (forall k, k <> "type" -> k <> "timestamp" -> dict_get k payload = dict_get k d)
        /\ (NoDup (dict_keys d) ->
            NoDup (dict_keys payload)
            /\ dict_get "type" payload = None /\ dict_get "timestamp" payload = None)
  end.
Proof.
  unfold from_dict.
  destruct (dict_pop "type" d) as [[event_type r1]|] eqn:Hpop1.
  - destruct (dict_pop_Some _ _ _ _ Hpop1) as (Hget1 & Hother1 & _ & Hnd1).
    rewrite Hget1, <- (Hother1 "timestamp") by discriminate.
    destruct (dict_pop "timestamp" r1) as [[time r2]|] eqn:Hpop2.
    + destruct (dict_pop_Some _ _ _ _ Hpop2) as (Hget2 & Hother2 & _ & Hnd2).
      rewrite Hget2. exists r2. split; [done|]. split.
      * intros k Hk1 Hk2. by rewrite Hother2, Hother1.
      * intros Hnodup. destruct (Hnd1 Hnodup) as [Hr1 Hnone1].
        destruct (Hnd2 Hr1) as [Hr2 Hnone2]. split; [done|]. split; [|done].
        by rewrite Hother2.
    + apply dict_pop_None in Hpop2. by rewrite Hpop2.
  - apply dict_pop_None in Hpop1. by rewrite Hpop1.
Qed.

(** X4: a dictionary with a string [type] and a string [timestamp] that is
    read as an event and written back holds the same value under every
    key. *)
Theorem to_dict_from_dict (d : pydict) (event_type time : string) (payload : pydict) :
  NoDup (dict_keys d) ->
  from_dict d = Ok (JStr event_type, JStr time, payload) ->
  forall k, dict_get k (to_dict (mkEvent event_type time payload)) = dict_get k d.
Proof.
  intros Hnodup Hfrom k. unfold from_dict in Hfrom.
  destruct (dict_pop "type" d) as [[t r1]|] eqn:Hpop1; [|discriminate].
  destruct (dict_pop "timestamp" r1) as [[ts r2]|] eqn:Hpop2; [|discriminate].
  injection Hfrom as -> -> ->.
  destruct (dict_pop_Some _ _ _ _ Hpop1) as (Hget1 & Hother1 & _ & Hnd1).
  destruct (dict_pop_Some _ _ _ _ Hpop2) as (Hget2 & Hother2 & _ & Hnd2).
  destruct (Hnd1 Hnodup) as [Hr1 Hnone1]. destruct (Hnd2 Hr1) as [Hr2 Hnone2].
  unfold to_dict. rewrite dict_get_update by done. cbn [data type timestamp dict_get].
  destruct (String.eqb_spec k "type") as [->|Hk1].
  - rewrite Hother2, Hnone1 by discriminate. by rewrite Hget1.
  - destruct (String.eqb_spec k "timestamp") as [->|Hk2].
    + rewrite Hnone2. by rewrite <- Hget2, Hother1.
    + rewrite Hother2, Hother1 by done. by destruct (dict_get k d).
Qed.

(** ** What validation looks at and what it raises *)

Section ValidationMore.

Variable py_str : json -> string.

Lemma check_fields_dict_ok prefix (d : pydict) (fields : list string) :
  check_fields prefix (JDict d) fields = Ok tt
  <-> forallb (fun field => dict_mem field d) fields = true.
Proof.
  induction fields as [|field fields IH]; cbn [check_fields py_in forallb]; [done|].
  destruct (dict_mem field d); cbn [andb]; [exact IH|]. split; discriminate.
Qed.

Lemma check_fields_scalar prefix (v : json) (field : string) (fields : list string) :
  is_scalar v = true -> check_fields prefix v (field :: fields) = Raise TypeError.
Proof. by destruct v. Qed.

Lemma check_fields_raises prefix (v : json) (fields : list string) (e : exn) :
  check_fields prefix v fields = Raise e ->
  (e = TypeError /\ is_scalar v = true)
  \/ (exists field, field ∈ fields /\ e = ProgressValidationError (prefix +:+ field)).
Proof.
  induction fields as [|field fields IH]; cbn [check_fields]; [discriminate|].
  destruct (py_in field v) as [[|]|e'] eqn:Hin.
  - intros Hrest. destruct (IH Hrest) as [Hty|(f & Hf & He)]; [by left|].
    right. exists f. split; [by right|done].
  - intros [= <-]. right. exists field. split; [by left|done].
  - intros [= <-]. left. destruct v; cbn [py_in] in Hin; try discriminate Hin;
      by injection Hin as <-.
Qed.

Lemma validate_ok_iff (data : pydict) :
  validate_progress_schema py_str data = Ok tt
  <-> exists v cw ls,
        dict_get "version" data = Some v /\ py_ne_2 v = false
        /\ dict_mem "project" data = true
        /\ dict_get "currentWork" data = Some cw
        /\ dict_get "lastSession" data = Some ls
        /\ check_fields "Missing currentWork field: " cw REQUIRED_CURRENT_WORK = Ok tt
        /\ check_fields "Missing lastSession field: " ls REQUIRED_LAST_SESSION = Ok tt.
Proof.
  unfold validate_progress_schema, dict_get_default, REQUIRED_TOP_LEVEL.
  cbn [check_fields py_in]. unfold dict_mem.
  destruct (dict_get "version" data) as [v|];
    [|split; [discriminate|by intros (?&?&?&?&?)]].
  destruct (py_ne_2 v) eqn:Hv;
    [split; [discriminate|intros (?&?&?&[= <-]&?&?); congruence]|].
  destruct (dict_get "project" data) as [p|];
    [|split; [discriminate|by intros (?&?&?&?&?&?&?)]].
  destruct (dict_get "currentWork" data) as [cw|];
    [|split; [discriminate|by intros (?&?&?&?&?&?&?&?)]].
  destruct (dict_get "lastSession" data) as [ls|];
    [|split; [discriminate|by intros (?&?&?&?&?&?&?&?&?)]].
  destruct (check_fields "Missing currentWork field: " cw REQUIRED_CURRENT_WORK)
    as [[]|e] eqn:Hcw.
  - split; [intros Hls; by exists v, cw, ls|].
    by intros (?&?&?&?&?&?&[= <-]&[= <-]&?&?).
  - split; [discriminate|]. intros (?&?&?&?&?&?&[= <-]&?&?&?). congruence.
Qed.

(** X6: validation reads the keys [version], [project], [currentWork] and
    [lastSession] only: two records that hold the same under these four
    validate alike, whatever else they hold and in whatever order. *)
Theorem validate_reads_four_keys (data data' : pydict) :
  (forall k, k ∈ REQUIRED_TOP_LEVEL -> dict_get k data' = dict_get k data) ->
  validate_progress_schema py_str data' = validate_progress_schema py_str data.
Proof.
  intros Hsame. unfold validate_progress_schema, dict_get_default.
  unfold REQUIRED_TOP_LEVEL. cbn [check_fields py_in]. unfold dict_mem.
  rewrite !Hsame by (unfold REQUIRED_TOP_LEVEL; set_solver). done.
Qed.

(** X7: validation raises nothing but its schema error and [TypeError];
    [TypeError] only when [currentWork] or [lastSession] is [null], a
    boolean or a number, and always when the version is 2, the four keys are
    there and [currentWork] is such a value. *)
Theorem validate_exceptions (data : pydict) :
  (forall e, validate_progress_schema py_str data = Raise e ->
     e = TypeError \/ exists msg, e = ProgressValidationError msg)
  /\ (validate_progress_schema py_str data = Raise TypeError ->
      (exists cw, dict_get "currentWork" data = Some cw /\ is_scalar cw = true)
      \/ (exists ls, dict_get "lastSession" data = Some ls /\ is_scalar ls = true))
  /\ (forall v cw,
        dict_get "version" data = Some v -> py_ne_2 v = false ->
        dict_mem "project" data = true -> dict_mem "lastSession" data = true ->
        dict_get "currentWork" data = Some cw -> is_scalar cw = true ->
        validate_progress_schema py_str data = Raise TypeError).
Proof.
  assert (Hraise : forall e, validate_progress_schema py_str data = Raise e ->
    (exists msg, e = ProgressValidationError msg)
    \/ (e = TypeError
        /\ ((exists cw, dict_get "currentWork" data = Some cw /\ is_scalar cw = true)
            \/ (exists ls, dict_get "lastSession" data = Some ls /\ is_scalar ls = true)))).
  { intros e. unfold validate_progress_schema, dict_get_default, REQUIRED_TOP_LEVEL.
    cbn [check_fields py_in]. unfold dict_mem.
    destruct (dict_get "version" data) as [v|]; [|intros [= <-]; left; eauto].
    destruct (py_ne_2 v); [intros [= <-]; left; eauto|].
    destruct (dict_get "project" data); [|intros [= <-]; left; eauto].
    destruct (dict_get "currentWork" data) as [cw|]; [|intros [= <-]; left; eauto].
    destruct (dict_get "lastSession" data) as [ls|]; [|intros [= <-]; left; eauto].
    destruct (check_fields "Missing currentWork field: " cw REQUIRED_CURRENT_WORK)
      as [[]|e'] eqn:Hcw.
    - intros Hls. destruct (check_fields_raises _ _ _ _ Hls) as [[-> Hs]|(f & _ & ->)];
        [right; split; [done|right; eauto]|left; eauto].
    - intros [= <-]. destruct (check_fields_raises _ _ _ _ Hcw) as [[-> Hs]|(f & _ & ->)];
        [right; split; [done|left; eauto]|left; eauto]. }
  split; [|split].
  - intros e He. destruct (Hraise e He) as [Hmsg|[-> _]]; [by right|by left].
  - intros He. destruct (Hraise _ He) as [[msg Hmsg]|[_ Hwhich]]; [discriminate|done].
  - intros v cw Hv Hne Hproject Hls Hcw Hscalar.
    unfold validate_progress_schema, dict_get_default, REQUIRED_TOP_LEVEL.
    cbn [check_fields py_in]. unfold dict_mem in *.
    rewrite Hv, Hne, Hcw. destruct (dict_get "project" data); [|discriminate].
    destruct (dict_get "lastSession" data); [|discriminate].
    unfold REQUIRED_CURRENT_WORK. by rewrite check_fields_scalar.
Qed.

End ValidationMore.

(** ** The progress store: validity, frames, failures *)

Ltac read_keys :=
  repeat first [rewrite dict_get_set_eq | rewrite dict_get_set_ne by discriminate].

Section TrackerMore.

Variable isoformat : nat -> string.
Variable strftime_ymd : nat -> string.
Variable py_str : json -> string.

Lemma dict_mem_set (k k' : string) (v : json) (d : pydict) :
  dict_mem k' d = true -> dict_mem k' (dict_set k v d) = true.
Proof.
  unfold dict_mem. destruct (String.eqb_spec k k') as [->|Hne].
  - by rewrite dict_get_set_eq.
  - by rewrite dict_get_set_ne.
Qed.

(** X5: the records the tracker makes up pass validation: the one
    [create_empty_progress] builds, for every project name and time, and so
    the one [_load_progress] writes where nothing was, in a directory that
    is there. *)
Theorem created_records_validate :
  (forall project_name w,
     exists d w',
       create_empty_progress isoformat strftime_ymd project_name w = (Ok d, w')
       /\ validate_progress_schema py_str d = Ok tt)
  /\ (forall path w,
        fs w !! path = None ->
        in_directory w path ->
        exists d w',
          _load_progress isoformat strftime_ymd path w = (Ok (JDict d), w')
          /\ holds_record w' path d
          /\ validate_progress_schema py_str d = Ok tt).
Proof.
  split.
  - intros project_name w. eexists _, _. split; [apply create_empty_progress_run|reflexivity].
  - intros path w Hnone Hdir. eexists _, _. split; [by apply load_absent|].
    split; [|reflexivity]. unfold holds_record. cbn [fs]. by rewrite lookup_insert_eq.
Qed.

(** X8: [end_session] leaves a record that passes validation whenever the
    record it loads is an object of version 2 with a project, whatever that
    record holds under [currentWork] and [lastSession]. *)
Theorem end_session_makes_valid path session_id duration_minutes summary commits
    next_steps w d v :
  holds_record w path d ->
  dict_get "version" d = Some v ->
  py_ne_2 v = false ->
  dict_mem "project" d = true ->
  exists w' d',
    end_session isoformat strftime_ymd path session_id duration_minutes summary commits
      next_steps w = (Ok tt, w')
    /\ holds_record w' path d'
    /\ validate_progress_schema py_str d' = Ok tt.
Proof.
  intros Hd Hv Hne Hproject. eexists _, _.
  rewrite (end_session_run isoformat strftime_ymd path session_id duration_minutes summary
             commits next_steps w d w (load_present isoformat strftime_ymd path (JDict d) w Hd))
    by (eexists; exact Hd).
  split; [reflexivity|]. unfold holds_record. cbn [fs].
  split; [by rewrite lookup_insert_eq|].
  apply validate_ok_iff. eexists v, _, _. unfold dict_mem in *. read_keys.
  rewrite Hv. split; [done|]. split; [done|]. split; [exact Hproject|].
  split; [reflexivity|]. split; [reflexivity|]. split; reflexivity.
Qed.

(** X9: on a record that passes validation [set_current_work] leaves a
    record that passes, and so does [start_session] when [currentWork] is
    an object. *)
Theorem valid_after_set_and_start path w d :
  holds_record w path d ->
  validate_progress_schema py_str d = Ok tt ->
  (forall work_type plan plan_task debug_issue debug_phase feature_id,
     exists w' d',
       set_current_work isoformat strftime_ymd path work_type plan plan_task debug_issue
         debug_phase feature_id w = (Ok tt, w')
       /\ holds_record w' path d'
       /\ validate_progress_schema py_str d' = Ok tt)
  /\ (forall session_id cw,
        dict_get "currentWork" d = Some (JDict cw) ->
        exists w' d',
          start_session isoformat strftime_ymd path session_id w = (Ok tt, w')
          /\ holds_record w' path d'
          /\ validate_progress_schema py_str d' = Ok tt).
Proof.
  intros Hd Hvalid.
  apply validate_ok_iff in Hvalid as (v & cw0 & ls & Hv & Hne & Hproject & Hcw0 & Hls & Hc & Hl).
  pose proof (load_present isoformat strftime_ymd path (JDict d) w Hd) as Hload.
  assert (Hdir : is_file w path) by (eexists; exact Hd).
  split.
  - intros work_type plan plan_task debug_issue debug_phase feature_id. eexists _, _.
    unfold set_current_work, bind at 1. rewrite Hload.
    unfold bind at 1, lift at 1. cbn [py_setitem]. rewrite save_run by done.
    split; [reflexivity|]. unfold holds_record. cbn [fs].
    split; [by rewrite lookup_insert_eq|].
    apply validate_ok_iff. eexists v, _, ls. unfold dict_mem in *. read_keys.
    rewrite Hv, Hls. split; [done|]. split; [done|]. split; [exact Hproject|].
    split; [reflexivity|]. split; [reflexivity|]. split; [reflexivity|exact Hl].
  - intros session_id cw Hcw. eexists _, _.
    rewrite (start_session_run isoformat strftime_ymd path session_id w d w cw Hload Hdir Hcw).
    split; [reflexivity|]. unfold holds_record. cbn [fs].
    split; [by rewrite lookup_insert_eq|].
    apply validate_ok_iff. eexists v, _, ls. unfold dict_mem in *. read_keys.
    rewrite Hv, Hls. split; [done|]. split; [done|]. split; [exact Hproject|].
    split; [reflexivity|]. split; [reflexivity|]. split; [|exact Hl].
    rewrite Hcw in Hcw0. injection Hcw0 as <-.
    apply check_fields_dict_ok. apply check_fields_dict_ok in Hc.
    apply forallb_forall. intros field Hfield.
    apply dict_mem_set. by apply (proj1 (forallb_forall _ _) Hc).
Qed.

(** X10: [start_session] sets the type of the current work to general and
    nothing else in the record but [lastUpdated]: the plan, task and debug
    fields stay as they were.  It sets the buffer of the session to the
    start event alone, whatever the buffer held, and leaves the other
    sessions and the other files alone. *)
Theorem start_session_resets_type_only path session_id w d cw :
  holds_record w path d ->
  dict_get "currentWork" d = Some (JDict cw) ->
  exists w' d',
    start_session isoformat strftime_ymd path session_id w = (Ok tt, w')
    /\ holds_record w' path d'
    /\ nested_get "currentWork" "type" d' = Some (JStr "general")
    /\ (forall k, k <> "type" -> nested_get "currentWork" k d' = dict_get k cw)
    /\ (forall k, k <> "currentWork" -> k <> "lastUpdated" -> dict_get k d' = dict_get k d)
    /\ _session_events w' !! session_id
       = Some [mkEvent "session_start" (isoformat (clock w) +:+ "Z") []]
    /\ (forall other, other <> session_id ->
          _session_events w' !! other = _session_events w !! other)
    /\ (forall p, p <> path -> fs w' !! p = fs w !! p).
Proof.
  intros Hd Hcw. eexists _, _.
  rewrite (start_session_run isoformat strftime_ymd path session_id w d w cw
             (load_present isoformat strftime_ymd path (JDict d) w Hd))
    by (try (eexists; exact Hd); done).
  split; [reflexivity|]. unfold holds_record, nested_get. cbn [fs _session_events].
  split; [by rewrite lookup_insert_eq|]. read_keys.
  split; [by rewrite ?dict_get_set_eq|].
  split; [intros k Hk; by rewrite dict_get_set_ne|].
  split; [intros k Hk1 Hk2; by rewrite !dict_get_set_ne|].
  split; [by rewrite lookup_insert_eq|].
  split; [intros other Hother; by rewrite lookup_insert_ne|].
  intros p Hp. by rewrite lookup_insert_ne.
Qed.

(** X11: on a record without [currentWork] [start_session] raises
    [KeyError], and on one whose [currentWork] is not an object it raises
    [TypeError]; either way nothing has changed: no buffer is made, the file
    is not written. *)
Theorem start_session_fails_clean path session_id w d :
  holds_record w path d ->
  (dict_get "currentWork" d = None ->
     start_session isoformat strftime_ymd path session_id w
     = (Raise (KeyError "currentWork"), w))
  /\ (forall v, dict_get "currentWork" d = Some v ->
        (forall cw, v <> JDict cw) ->
        start_session isoformat strftime_ymd path session_id w = (Raise TypeError, w)).
Proof.
  intros Hd. pose proof (load_present isoformat strftime_ymd path (JDict d) w Hd) as Hload.
  split.
  - intros Hnone. unfold start_session, bind at 1. rewrite Hload.
    unfold bind at 1, lift at 1, py_getitem. by rewrite Hnone.
  - intros v Hv Hnot. unfold start_session, bind at 1. rewrite Hload.
    unfold bind at 1, lift at 1, py_getitem. rewrite Hv.
    unfold bind at 1, lift at 1.
    destruct v as [| | | | | |cw]; try reflexivity. by destruct (Hnot cw).
Qed.

(** X12: [end_session] replaces [lastSession] and [currentWork] and stamps
    [lastUpdated]; every other key of the record keeps its value.  The next
    steps it stores are the ones given, none when they are left out.  It
    removes the buffer of the session and leaves the other sessions and the
    other files alone. *)
Theorem end_session_frame path session_id duration_minutes summary commits next_steps
    w d :
  holds_record w path d ->
  exists w' d',
    end_session isoformat strftime_ymd path session_id duration_minutes summary commits
      next_steps w = (Ok tt, w')
    /\ holds_record w' path d'
    /\ (forall k, k <> "lastSession" -> k <> "currentWork" -> k <> "lastUpdated" ->
          dict_get k d' = dict_get k d)
    /\ nested_get "lastSession" "nextSteps" d' = Some (JList (default [] next_steps))
    /\ nested_get "lastSession" "date" d' = Some (JStr (strftime_ymd (S (clock w))))
    /\ dict_get "lastUpdated" d' = Some (JStr (isoformat (S (S (clock w))) +:+ "Z"))
    /\ _session_events w' !! session_id = None
    /\ (forall other, other <> session_id ->
          _session_events w' !! other = _session_events w !! other)
    /\ (forall p, p <> path -> fs w' !! p = fs w !! p).
Proof.
  intros Hd. eexists _, _.
  rewrite (end_session_run isoformat strftime_ymd path session_id duration_minutes summary
             commits next_steps w d w (load_present isoformat strftime_ymd path (JDict d) w Hd))
    by (eexists; exact Hd).
  split; [reflexivity|]. unfold holds_record, nested_get. cbn [fs _session_events].
  split; [by rewrite lookup_insert_eq|].
  split; [intros k Hk1 Hk2 Hk3; by rewrite !dict_get_set_ne|].
  read_keys. split; [reflexivity|]. split; [reflexivity|]. split; [reflexivity|].
  split; [by rewrite lookup_delete_eq|].
  split; [intros other Hother; by rewrite lookup_delete_ne|].
  intros p Hp. by rewrite lookup_insert_ne.
Qed.

(** X13: [set_current_work] changes [currentWork] and [lastUpdated] only,
    needs no session and touches no buffer, and leaves the other files
    alone. *)
Theorem set_current_work_frame path work_type plan plan_task debug_issue debug_phase
    feature_id w d :
  holds_record w path d ->
  exists w' d',
    set_current_work isoformat strftime_ymd path work_type plan plan_task debug_issue
      debug_phase feature_id w = (Ok tt, w')
    /\ holds_record w' path d'
    /\ (forall k, k <> "currentWork" -> k <> "lastUpdated" -> dict_get k d' = dict_get k d)
    /\ _session_events w' = _session_events w
    /\ (forall p, p <> path -> fs w' !! p = fs w !! p).
Proof.
  intros Hd. eexists _, _. unfold set_current_work, bind at 1.
  rewrite (load_present isoformat strftime_ymd path (JDict d) w Hd).
  unfold bind at 1, lift at 1. cbn [py_setitem].
  rewrite save_run by (eexists; exact Hd).
  split; [reflexivity|]. unfold holds_record. cbn [fs _session_events].
  split; [by rewrite lookup_insert_eq|].
  split; [intros k Hk1 Hk2; by rewrite !dict_get_set_ne|].
  split; [done|]. intros p Hp. by rewrite lookup_insert_ne.
Qed.

(** X14: a file that is not JSON makes [start_session], [end_session],
    [get_current_work] and [set_current_work] raise the decoding error and
    change nothing: the file, the buffers and the clock are as before. *)
Theorem corrupt_file_propagates path raw w :
  fs w !! path = Some (File (OtherText raw)) ->
  (forall session_id,
     start_session isoformat strftime_ymd path session_id w = (Raise JSONDecodeError, w))
  /\ (forall session_id duration_minutes summary commits next_steps,
        end_session isoformat strftime_ymd path session_id duration_minutes summary
          commits next_steps w = (Raise JSONDecodeError, w))
  /\ get_current_work isoformat strftime_ymd path w = (Raise JSONDecodeError, w)
  /\ (forall work_type plan plan_task debug_issue debug_phase feature_id,
        set_current_work isoformat strftime_ymd path work_type plan plan_task debug_issue
          debug_phase feature_id w = (Raise JSONDecodeError, w)).
Proof.
  intros Hfile.
  assert (Hload : _load_progress isoformat strftime_ymd path w = (Raise JSONDecodeError, w)).
  { unfold _load_progress, bind, path_exists, read_text.
    rewrite Hfile. cbn [negb]. by rewrite Hfile. }
  split; [|split; [|split]].
  - intros session_id. unfold start_session, bind at 1. by rewrite Hload.
  - intros *. unfold end_session, bind at 1. by rewrite Hload.
  - unfold get_current_work, bind at 1. by rewrite Hload.
  - intros *. unfold set_current_work, bind at 1. by rewrite Hload.
Qed.

(** X15: on a file holding JSON that is not an object [start_session] and
    [set_current_work] raise [TypeError] and [get_current_work] raises
    [AttributeError], with nothing changed.  [end_session] raises
    [TypeError] and leaves the file as it is, but by then it has read the
    clock twice and has appended the end event to the buffer of the
    session, when there is one; the buffer is not removed. *)
Theorem non_object_file_raises path j w :
  fs w !! path = Some (File (JsonText j)) ->
  (forall d, j <> JDict d) ->
  (forall session_id,
     start_session isoformat strftime_ymd path session_id w = (Raise TypeError, w))
  /\ get_current_work isoformat strftime_ymd path w = (Raise AttributeError, w)
  /\ (forall work_type plan plan_task debug_issue debug_phase feature_id,
        set_current_work isoformat strftime_ymd path work_type plan plan_task debug_issue
          debug_phase feature_id w = (Raise TypeError, w))
  /\ (forall session_id duration_minutes summary commits next_steps,
        end_session isoformat strftime_ymd path session_id duration_minutes summary
          commits next_steps w
        = (Raise TypeError,
           mkWorld (fs w)
             (match _session_events w !! session_id with
              | Some buffer =>
                  <[session_id := buffer
                      ++ [mkEvent "session_end" (isoformat (clock w) +:+ "Z")
                            [("duration", JInt duration_minutes)]]]> (_session_events w)
              | None => _session_events w
              end)
             (S (S (clock w))))).
Proof.
  intros Hfile Hnot.
  pose proof (load_present isoformat strftime_ymd path j w Hfile) as Hload.
  assert (Hget : forall k, py_getitem j k = Raise TypeError)
    by (intros k; destruct j as [| | | | | |d]; try reflexivity; by destruct (Hnot d)).
  assert (Hset : forall k v, py_setitem j k v = Raise TypeError)
    by (intros k v; destruct j as [| | | | | |d]; try reflexivity; by destruct (Hnot d)).
  split; [|split; [|split]].
  - intros session_id. unfold start_session, bind at 1. rewrite Hload.
    unfold bind at 1, lift at 1. by rewrite Hget.
  - unfold get_current_work, bind at 1. rewrite Hload. unfold lift.
    destruct j as [| | | | | |d]; try reflexivity. by destruct (Hnot d).
  - intros *. unfold set_current_work, bind at 1. rewrite Hload.
    unfold bind at 1, lift at 1. by rewrite Hset.
  - intros *. unfold end_session, bind at 1. rewrite Hload.
    unfold bind at 1, get_session_events at 1.
    destruct (_session_events w !! session_id) as [buffer|];
      unfold bind, create_event, utcnow, ret, lift, set_session_events;
      cbn [fs _session_events clock EventType_value default from_option id];
      unfold bind, utcnow, ret, lift, set_session_events;
      cbn [fs _session_events clock]; by rewrite Hset.
Qed.

Lemma add_events_run path session_id calls w buffer :
  _session_events w !! session_id = Some buffer ->
  add_events isoformat path session_id calls w
  = (Ok tt,
     mkWorld (fs w)
       (<[session_id := buffer ++ stamped isoformat (clock w) calls]> (_session_events w))
       (clock w + length calls)).
Proof.
  revert w buffer. induction calls as [|[event_type kwargs] calls IH]; intros w buffer Hbuf.
  - cbn [add_events stamped length]. rewrite app_nil_r, insert_id, Nat.add_0_r by done.
    by destruct w.
  - cbn [add_events stamped length]. unfold bind at 1. rewrite add_event_run.
    rewrite Hbuf. cbn [default from_option id].
    erewrite IH; [|cbn [_session_events]; by rewrite lookup_insert_eq].
    cbn [fs _session_events clock]. rewrite insert_insert_eq, <- app_assoc.
    cbn [app]. by rewrite Nat.add_succ_r.
Qed.

(** X16: whatever the number of events added after a successful
    [start_session], [end_session] writes the start event, then the added
    events in the order of the calls, each with the clock reading of its
    call, then the end event. *)
Theorem all_events_flushed_in_order path session_id calls duration_minutes summary
    commits next_steps w w1 :
  start_session isoformat strftime_ymd path session_id w = (Ok tt, w1) ->
  exists w2 w3 d started_at,
    add_events isoformat path session_id calls w1 = (Ok tt, w2)
    /\ end_session isoformat strftime_ymd path session_id duration_minutes summary commits
         next_steps w2 = (Ok tt, w3)
    /\ holds_record w3 path d
    /\ nested_get "lastSession" "events" d
       = Some (JList
           (JDict [("type", JStr "session_start"); ("timestamp", JStr started_at)]
            :: map (fun e => JDict (to_dict e)) (stamped isoformat (clock w1) calls)
            ++ [JDict [("type", JStr "session_end");
                       ("timestamp", JStr (isoformat (clock w1 + length calls) +:+ "Z"));
                       ("duration", JInt duration_minutes)]]))
    /\ _session_events w3 !! session_id = None.
Proof.
  intros Hstart.
  destruct (start_session_ok isoformat strftime_ymd path session_id w w1 Hstart)
    as (d1 & t0 & Hd1 & Hbuf).
  pose proof (add_events_run path session_id calls w1 _ Hbuf) as Hadd.
  match type of Hadd with _ = (_, ?w') => set (w2 := w') in * end.
  assert (Hd2 : holds_record w2 path d1) by exact Hd1.
  eexists w2, _, _, t0. split; [exact Hadd|].
  rewrite (end_session_run isoformat strftime_ymd path session_id duration_minutes summary
             commits next_steps w2 d1 w2
             (load_present isoformat strftime_ymd path (JDict d1) w2 Hd2))
    by (eexists; exact Hd2).
  split; [reflexivity|]. unfold holds_record, nested_get. cbn [fs _session_events].
  split; [by rewrite lookup_insert_eq|]. read_keys.
  split; [|by rewrite lookup_delete_eq].
  subst w2. cbn [_session_events clock dict_get String.eqb Ascii.eqb Bool.eqb].
  rewrite lookup_insert_eq. cbn [default from_option id app].
  cbn [map]. rewrite List.map_app. reflexivity.
Qed.

(** ** Path resolution: what it returns and what it leaves *)

Lemma walk_up_exit cwd w :
  exists exit,
    walk_up cwd w = (Ok exit, w)
    /\ (forall p, exit = Found p ->
          exists k, (k < length cwd)%nat
                    /\ p = nth_parent k cwd // PROGRESS_FILENAME
                    /\ has_file w (nth_parent k cwd) = true).
Proof.
  induction cwd as [|part up IH].
  - exists Anchor. split; [reflexivity|discriminate].
  - rewrite walk_up_step. destruct (has_file w (part :: up)) eqn:Hfile.
    + eexists. split; [reflexivity|]. intros p [= <-]. exists 0%nat.
      split; [simpl; lia|]. by split.
    + destruct (has_git w (part :: up)).
      * eexists. split; [reflexivity|discriminate].
      * destruct IH as (exit & Hwalk & Hfound). exists exit. split; [done|].
        intros p Hp. destruct (Hfound p Hp) as (k & Hk & -> & Hthere).
        exists (S k). split; [simpl; lia|]. by split.
Qed.

Lemma find_here cwd create_if_missing w :
  has_file w cwd = true ->
  find_progress_file isoformat strftime_ymd cwd create_if_missing w
  = (Ok (Some (cwd // PROGRESS_FILENAME)), w).
Proof.
  intros Hfile. unfold find_progress_file, bind, path_exists.
  unfold has_file in Hfile. unfold PROGRESS_FILENAME.
  by destruct (fs w !! (cwd // "project-progress.json")).
Qed.

Lemma find_walked cwd create_if_missing w p :
  has_file w cwd = false ->
  walk_up cwd w = (Ok (Found p), w) ->
  find_progress_file isoformat strftime_ymd cwd create_if_missing w = (Ok (Some p), w).
Proof.
  intros Hfile Hwalk. unfold find_progress_file, bind at 1, path_exists at 1.
  unfold has_file in Hfile. unfold PROGRESS_FILENAME at 1.
  destruct (fs w !! (cwd // "project-progress.json")); [done|].
  unfold bind. by rewrite Hwalk.
Qed.

(** The three ways resolution ends. *)
Lemma find_cases cwd create_if_missing w :
  (create_if_missing = true -> is_directory w cwd) ->
  (has_file w cwd = true
   /\ find_progress_file isoformat strftime_ymd cwd create_if_missing w
      = (Ok (Some (cwd // PROGRESS_FILENAME)), w))
  \/ (has_file w cwd = false
      /\ exists k, (k < length cwd)%nat
           /\ has_file w (nth_parent k cwd) = true
           /\ find_progress_file isoformat strftime_ymd cwd create_if_missing w
              = (Ok (Some (nth_parent k cwd // PROGRESS_FILENAME)), w))
  \/ (has_file w cwd = false
      /\ find_progress_file isoformat strftime_ymd cwd create_if_missing w
         = when_not_found isoformat strftime_ymd cwd create_if_missing w).
Proof.
  intros Hdir.
  destruct (has_file w cwd) eqn:Hfile; [left; split; [done|by apply find_here]|].
  right. destruct (walk_up_exit cwd w) as (exit & Hwalk & Hfound).
  destruct exit as [p| |].
  - left. split; [done|]. destruct (Hfound p eq_refl) as (k & Hk & -> & Hthere).
    exists k. split; [done|]. split; [done|]. by apply find_walked.
  - right. split; [done|].
    apply (find_not_found _ _ _ _ _ GitRoot); [done|done|by left|done].
  - right. split; [done|].
    apply (find_not_found _ _ _ _ _ Anchor); [done|done|by right|done].
Qed.

(** X17: where [cwd] is a directory that is there when a file is to be
    created, [find_progress_file] never raises.  A path it returns is the
    progress file of [cwd] or of one of its parents and is there when the
    call returns; it returns nothing only when not asked to create.  Without
    creation the world is unchanged, and with it no file but the progress
    file of [cwd] is touched. *)
Theorem find_progress_file_sound cwd create_if_missing w :
  (create_if_missing = true -> is_directory w cwd) ->
  exists r w',
    find_progress_file isoformat strftime_ymd cwd create_if_missing w = (Ok r, w')
    /\ match r with
       | Some p =>
           (exists k, (k <= length cwd)%nat /\ p = nth_parent k cwd // PROGRESS_FILENAME)
           /\ is_Some (fs w' !! p)
       | None => create_if_missing = false
       end
    /\ (create_if_missing = false -> w' = w)
    /\ (forall q, q <> cwd // PROGRESS_FILENAME -> fs w' !! q = fs w !! q)
    /\ _session_events w' = _session_events w.
Proof.
  intros Hdir.
  assert (Hthere : forall dir, has_file w dir = true ->
                     is_Some (fs w !! (dir // PROGRESS_FILENAME))).
  { intros dir. unfold has_file, PROGRESS_FILENAME.
    destruct (fs w !! (dir // "project-progress.json")); [eauto|discriminate]. }
  destruct (find_cases cwd create_if_missing w Hdir)
    as [[Hfile Hrun]|[[Hfile (k & Hk & Hfound & Hrun)]|[Hfile Hrun]]].
  - eexists _, w. split; [exact Hrun|]. split; [|done].
    split; [exists 0%nat; split; [lia|done]|by apply Hthere].
  - eexists _, w. split; [exact Hrun|]. split; [|done].
    split; [exists k; split; [lia|done]|by apply Hthere].
  - rewrite Hrun. unfold when_not_found. destruct create_if_missing.
    + eexists _, _. split; [reflexivity|]. cbn [fs _session_events]. split.
      * split; [exists 0%nat; split; [lia|done]|].
        unfold PROGRESS_FILENAME. by rewrite lookup_insert_eq.
      * split; [discriminate|]. split; [|done].
        intros q Hq. unfold PROGRESS_FILENAME in Hq. by rewrite lookup_insert_ne.
    + eexists _, _. split; [reflexivity|]. done.
Qed.

(** X18: resolving again gives the same answer and changes nothing more:
    where [cwd] is a directory that is there when a file is to be created,
    after a call, a second call with the same arguments returns what the
    first returned and leaves the world as the first left it. *)
Theorem find_progress_file_idempotent cwd create_if_missing w r w' :
  (create_if_missing = true -> is_directory w cwd) ->
  find_progress_file isoformat strftime_ymd cwd create_if_missing w = (r, w') ->
  find_progress_file isoformat strftime_ymd cwd create_if_missing w' = (r, w').
Proof.
  intros Hdir Hfirst.
  destruct (find_cases cwd create_if_missing w Hdir)
    as [[Hfile Hrun]|[[Hfile (k & Hk & Hfound & Hrun)]|[Hfile Hrun]]].
  - rewrite Hrun in Hfirst. injection Hfirst as <- <-. exact Hrun.
  - rewrite Hrun in Hfirst. injection Hfirst as <- <-. exact Hrun.
  - rewrite Hrun in Hfirst. unfold when_not_found in Hfirst.
    destruct create_if_missing.
    + injection Hfirst as <- <-. apply find_here.
      unfold has_file. cbn [fs]. by rewrite lookup_insert_eq.
    + injection Hfirst as <- <-. exact Hrun.
Qed.

(** X19: when resolution without creation finds nothing and [cwd] is a
    directory that is there, resolution with
    creation writes the very file that [_load_progress] would write at the
    progress file of [cwd], named after [cwd]; loading the returned path
    afterwards gives that record and changes nothing. *)
Theorem find_creates_what_load_creates cwd w :
  find_progress_file isoformat strftime_ymd cwd false w = (Ok None, w) ->
  is_directory w cwd ->
  exists d w',
    find_progress_file isoformat strftime_ymd cwd true w
    = (Ok (Some (cwd // PROGRESS_FILENAME)), w')
    /\ _load_progress isoformat strftime_ymd (cwd // PROGRESS_FILENAME) w = (Ok (JDict d), w')
    /\ dict_get "project" d = Some (JStr (name cwd))
    /\ _load_progress isoformat strftime_ymd (cwd // PROGRESS_FILENAME) w' = (Ok (JDict d), w').
Proof.
  intros Hnothing Hdir.
  assert (Hfile : has_file w cwd = false).
  { destruct (has_file w cwd) eqn:Hfile; [|done].
    rewrite find_here in Hnothing by done. discriminate. }
  assert (Hnone : fs w !! (cwd // PROGRESS_FILENAME) = None).
  { unfold has_file in Hfile. unfold PROGRESS_FILENAME.
    by destruct (fs w !! (cwd // "project-progress.json")). }
  destruct (walk_up_exit cwd w) as (exit & Hwalk & _).
  assert (Hexit : exit = GitRoot \/ exit = Anchor).
  { destruct exit as [p| |]; [|by left|by right].
    rewrite (find_walked cwd false w p) in Hnothing by done. discriminate. }
  rewrite (find_not_found isoformat strftime_ymd cwd true w exit Hfile Hwalk Hexit
             (fun _ => Hdir)).
  unfold when_not_found. eexists _, _. split; [reflexivity|].
  split; [exact (load_absent isoformat strftime_ymd (cwd // PROGRESS_FILENAME) w Hnone
                   Hdir)|].
  split; [reflexivity|].
  apply load_present. cbn [fs]. unfold PROGRESS_FILENAME. by rewrite lookup_insert_eq.
Qed.

End TrackerMore.

(** ** The theorems at concrete records, worlds and calls *)

(** The cases of the repository's tests. *)

Example test_valid_v2_schema :
  validate_progress_schema example_py_str valid_progress = Ok tt.
Proof. reflexivity. Qed.

Example test_missing_version_fails :
  validate_progress_schema example_py_str [("project", JStr "test")]
  = Raise (ProgressValidationError "Missing required field: version").
Proof. reflexivity. Qed.

Example test_wrong_version_fails :
  validate_progress_schema example_py_str [("version", JInt 1); ("project", JStr "test")]
  = Raise (ProgressValidationError "Expected version 2, got 1").
Proof. reflexivity. Qed.

Example test_missing_required_fields_fails :
  validate_progress_schema example_py_str [("version", JInt 2)]
  = Raise (ProgressValidationError "Missing required field: project").
Proof. reflexivity. Qed.

Example version_compares_by_value :
  py_ne_2 (JFloat 2%float) = false /\ py_ne_2 (JBool true) = true
  /\ py_ne_2 (JStr "2") = true.
Proof. repeat split; reflexivity. Qed.

Example test_event_to_dict :
  to_dict (mkEvent "checkpoint" "2025-12-11T18:00:00Z"
             [("summary", JStr "Mid-session save")])
  = [("type", JStr "checkpoint"); ("timestamp", JStr "2025-12-11T18:00:00Z");
     ("summary", JStr "Mid-session save")].
Proof. reflexivity. Qed.

Example test_create_if_not_exists :
  fst (find_progress_file example_isoformat example_strftime ["proj"; "tmp"] true
         project_world)
  = Ok (Some progress_file).
Proof. vm_compute. reflexivity. Qed.

Example test_stops_at_git_root :
  fst (find_progress_file example_isoformat example_strftime ["sub"; "root"] false
         tree_world)
  = Ok None.
Proof. vm_compute. reflexivity. Qed.

Example add_event_creates_buffer :
  _session_events
    (snd (add_event example_isoformat progress_file "late" CHECKPOINT [] empty_world))
  !! "late"
  = Some [mkEvent "checkpoint" "2025-12-11T18:00:0Z" []].
Proof. vm_compute. reflexivity. Qed.

(** C1 as stated fails: a record whose [currentWork] lists the field names
    and whose [lastSession] is a string naming them passes validation though
    it has no nested field, and a record whose [currentWork] is [null] makes
    validation raise [TypeError], not the schema error. *)
Lemma validate_not_exact_on_untyped_records :
  validate_progress_schema example_py_str record_without_nested_fields = Ok tt
  /\ fully_populated_v2 record_without_nested_fields = false
  /\ ~ validation_is_exact example_py_str record_without_nested_fields
  /\ validate_progress_schema example_py_str record_with_null_current_work = Raise TypeError
  /\ fully_populated_v2 record_with_null_current_work = false
  /\ ~ validation_is_exact example_py_str record_with_null_current_work.
Proof.
  split; [reflexivity|]. split; [reflexivity|]. split.
  { intros [_ Hraises]. destruct (Hraises eq_refl) as [msg Hmsg]. discriminate Hmsg. }
  split; [reflexivity|]. split; [reflexivity|].
  intros [_ Hraises]. destruct (Hraises eq_refl) as [msg Hmsg]. discriminate Hmsg.
Qed.

Lemma validate_exact_on_object_records_witness :
  nested_records_are_objects valid_progress = true
  /\ validate_progress_schema example_py_str valid_progress = Ok tt.
Proof.
  split; [reflexivity|].
  apply (validate_exact_on_object_records example_py_str valid_progress); reflexivity.
Defined.

Lemma session_lifecycle_witness :
  ((fs world_with_default !! progress_file = None
    /\ in_directory world_with_default progress_file)
   \/ holds_fresh_default world_with_default progress_file)
  /\ exists w' d,
       (do* start_session example_isoformat example_strftime progress_file "test-123" then
        end_session example_isoformat example_strftime progress_file "test-123" 30 "S"
          [example_commit] None) world_with_default = (Ok tt, w')
       /\ holds_record w' progress_file d
       /\ nested_get "lastSession" "duration_minutes" d = Some (JInt 30)
       /\ nested_get "lastSession" "summary" d = Some (JStr "S")
       /\ nested_get "lastSession" "commits" d = Some (JList [example_commit])
       /\ dict_get "currentWork" d
          = Some (JDict [("type", JStr "general"); ("plan", JNull); ("planTask", JNull);
                         ("debugIssue", JNull); ("debugPhase", JNull)]).
Proof.
  assert (Hfresh : (fs world_with_default !! progress_file = None
                    /\ in_directory world_with_default progress_file)
                   \/ holds_fresh_default world_with_default progress_file).
  { right. exists "test-project", "2025-12-11T17:00:00Z", "2025-12-11".
    vm_compute. reflexivity. }
  split; [exact Hfresh|].
  exact (session_lifecycle example_isoformat example_strftime progress_file "test-123"
           30 "S" [example_commit] world_with_default Hfresh).
Defined.

Lemma events_flushed_in_order_witness :
  start_session example_isoformat example_strftime progress_file "test-123"
    world_with_default = (Ok tt, started_world)
  /\ exists w2 w3 w4 d t0 t1 t2 t3,
       add_event example_isoformat progress_file "test-123" PLAN_STARTED
         [("plan", JStr "test.md")] started_world = (Ok tt, w2)
       /\ add_event example_isoformat progress_file "test-123" PLAN_TASK_COMPLETED
            [("task", JInt 1)] w2 = (Ok tt, w3)
       /\ end_session example_isoformat example_strftime progress_file "test-123" 30
            "Done" [] None w3 = (Ok tt, w4)
       /\ holds_record w4 progress_file d
       /\ nested_get "lastSession" "events" d
          = Some (JList
              [JDict [("type", JStr "session_start"); ("timestamp", JStr t0)];
               JDict (to_dict (mkEvent "plan_started" t1 [("plan", JStr "test.md")]));
               JDict (to_dict (mkEvent "plan_task_completed" t2 [("task", JInt 1)]));
               JDict [("type", JStr "session_end"); ("timestamp", JStr t3);
                      ("duration", JInt 30)]]).
Proof.
  assert (Hstart : start_session example_isoformat example_strftime progress_file
                     "test-123" world_with_default = (Ok tt, started_world))
    by (vm_compute; reflexivity).
  split; [exact Hstart|].
  exact (events_flushed_in_order example_isoformat example_strftime progress_file
           "test-123" PLAN_STARTED [("plan", JStr "test.md")] PLAN_TASK_COMPLETED
           [("task", JInt 1)] 30 "Done" [] None world_with_default started_world Hstart).
Defined.

Lemma save_load_roundtrip_witness :
  holds_record world_with_default progress_file
    (default_record "test-project" "2025-12-11T17:00:00Z" "2025-12-11")
  /\ exists d' w',
       (let* data := _load_progress example_isoformat example_strftime progress_file in
        _save_progress example_isoformat progress_file data) world_with_default
       = (Ok tt, w')
       /\ holds_record w' progress_file d'
       /\ dict_remove "lastUpdated" d'
          = dict_remove "lastUpdated"
              (default_record "test-project" "2025-12-11T17:00:00Z" "2025-12-11").
Proof.
  assert (Hd : holds_record world_with_default progress_file
                 (default_record "test-project" "2025-12-11T17:00:00Z" "2025-12-11"))
    by (vm_compute; reflexivity).
  split; [exact Hd|].
  destruct (save_load_roundtrip example_isoformat example_strftime progress_file _
              world_with_default Hd) as (d' & w' & Hrun & Hd' & _ & Hsame & _).
  exists d', w'. split; [exact Hrun|]. split; [exact Hd'|exact Hsame].
Defined.

(** C5 as stated fails: where the directory that would contain the file is
    not there, [_load_progress] raises [FileNotFoundError] and no file is
    made. *)
Lemma load_needs_directory :
  fs empty_world !! progress_file = None
  /\ _load_progress example_isoformat example_strftime progress_file empty_world
     = (Raise FileNotFoundError, mkWorld ∅ ∅ 2)
  /\ fs (snd (_load_progress example_isoformat example_strftime progress_file
               empty_world)) !! progress_file = None.
Proof. repeat split; vm_compute; reflexivity. Qed.

Lemma load_creates_once_witness :
  fs project_world !! progress_file = None
  /\ in_directory project_world progress_file
  /\ exists d w1,
       _load_progress example_isoformat example_strftime progress_file project_world
       = (Ok (JDict d), w1)
       /\ dict_get "project" d = Some (JStr "proj")
       /\ _load_progress example_isoformat example_strftime progress_file w1
          = (Ok (JDict d), w1).
Proof.
  assert (Hnone : fs project_world !! progress_file = None) by (vm_compute; reflexivity).
  assert (Hdir : in_directory project_world progress_file) by (vm_compute; reflexivity).
  split; [exact Hnone|]. split; [exact Hdir|].
  destruct (load_creates_once example_isoformat example_strftime progress_file
              project_world Hnone Hdir)
    as (d & w1 & Hload & _ & _ & Hproject & _ & _ & Hagain).
  exists d, w1. split; [exact Hload|]. split; [exact Hproject|exact Hagain].
Defined.

Lemma find_progress_file_resolution_witness :
  (* the tree of the specification: nothing is found from [root/sub] *)
  find_progress_file example_isoformat example_strftime ["sub"; "root"] false tree_world
  = (Ok None, tree_world)
  (* asked to create, the file goes to [root/sub], not to [root] *)
  /\ find_progress_file example_isoformat example_strftime ["sub"; "root"] true tree_world
     = when_not_found example_isoformat example_strftime ["sub"; "root"] true tree_world
  (* from [root/other] the file is there *)
  /\ find_progress_file example_isoformat example_strftime ["other"; "root"] false tree_world
     = (Ok (Some ["project-progress.json"; "other"; "root"]), tree_world)
  (* from [root/other/deep] it is found one directory up *)
  /\ find_progress_file example_isoformat example_strftime ["deep"; "other"; "root"] false
       tree_world
     = (Ok (Some ["project-progress.json"; "other"; "root"]), tree_world)
  (* with no marker anywhere the walk ends at the anchor *)
  /\ find_progress_file example_isoformat example_strftime ["sub"; "root"] false empty_world
     = (Ok None, empty_world).
Proof.
  split; [|split; [|split; [|split]]].
  - apply (find_progress_file_resolution example_isoformat example_strftime
             ["sub"; "root"] false tree_world) with (root := ["root"]);
      vm_compute; reflexivity.
  - apply (find_progress_file_resolution example_isoformat example_strftime
             ["sub"; "root"] true tree_world) with (k := 1%nat).
    + simpl. lia.
    + intros j Hj. destruct j as [|j]; [vm_compute; split; reflexivity | lia].
    + vm_compute. reflexivity.
    + vm_compute. reflexivity.
    + intros _. vm_compute. reflexivity.
  - apply (find_progress_file_resolution example_isoformat example_strftime
             ["other"; "root"] false tree_world).
    vm_compute. reflexivity.
  - apply (find_progress_file_resolution example_isoformat example_strftime
             ["deep"; "other"; "root"] false tree_world) with (k := 1%nat).
    + simpl. lia.
    + intros j Hj. destruct j as [|j]; [vm_compute; split; reflexivity | lia].
    + vm_compute. reflexivity.
  - apply (find_progress_file_resolution example_isoformat example_strftime
             ["sub"; "root"] false empty_world).
    + vm_compute. reflexivity.
    + intros j Hj. destruct j as [|[|j]]; [vm_compute; split; reflexivity ..|].
      simpl in Hj. lia.
    + discriminate.
Defined.

(** C7 as stated fails: a call for the plan type that also passes a debug
    issue stores the issue, so a field of another work type is not null. *)
Lemma set_current_work_keeps_foreign_argument :
  fst ((do* set_current_work example_isoformat example_strftime progress_file PLAN
              (Some "p.md") (Some 2) (Some "flaky test") None None then
        get_current_work example_isoformat example_strftime progress_file)
         world_with_default)
  = Ok (JDict [("type", JStr "plan"); ("plan", JStr "p.md"); ("planTask", JInt 2);
               ("debugIssue", JStr "flaky test"); ("debugPhase", JNull);
               ("featureId", JNull)])
  /\ other_fields_null PLAN
       [("type", JStr "plan"); ("plan", JStr "p.md"); ("planTask", JInt 2);
        ("debugIssue", JStr "flaky test"); ("debugPhase", JNull); ("featureId", JNull)]
     = false.
Proof. split; vm_compute; reflexivity. Qed.

Lemma set_current_work_stores_arguments_witness :
  usable world_with_default progress_file
  /\ exists w' d,
       set_current_work example_isoformat example_strftime progress_file PLAN
         (Some "p.md") (Some 2) None None None world_with_default = (Ok tt, w')
       /\ holds_record w' progress_file d
       /\ get_current_work example_isoformat example_strftime progress_file w'
          = (Ok (JDict [("type", JStr "plan"); ("plan", JStr "p.md");
                        ("planTask", JInt 2); ("debugIssue", JNull);
                        ("debugPhase", JNull); ("featureId", JNull)]), w').
Proof.
  assert (Husable : usable world_with_default progress_file).
  { right. eexists. vm_compute. reflexivity. }
  split; [exact Husable|].
  destruct (set_current_work_stores_arguments example_isoformat example_strftime
              progress_file PLAN (Some "p.md") (Some 2) None None None
              world_with_default Husable) as (w' & d & Hrun & Hd & _ & Hget & _).
  exists w', d. split; [exact Hrun|]. split; [exact Hd|exact Hget].
Defined.

Lemma end_session_without_start_witness :
  _session_events world_with_default !! "never-started" = None
  /\ usable world_with_default progress_file
  /\ exists w' d ended_at,
       end_session example_isoformat example_strftime progress_file "never-started" 5
         "quick" [] None world_with_default = (Ok tt, w')
       /\ holds_record w' progress_file d
       /\ nested_get "lastSession" "events" d
          = Some (JList [JDict [("type", JStr "session_end");
                                ("timestamp", JStr ended_at); ("duration", JInt 5)]]).
Proof.
  assert (Hbuf : _session_events world_with_default !! "never-started" = None)
    by (vm_compute; reflexivity).
  assert (Husable : usable world_with_default progress_file).
  { right. eexists. vm_compute. reflexivity. }
  split; [exact Hbuf|]. split; [exact Husable|].
  destruct (end_session_without_start example_isoformat example_strftime progress_file
              "never-started" 5 "quick" [] None world_with_default Hbuf Husable)
    as (w' & d & ended_at & Hrun & Hd & Hevents & _).
  exists w', d, ended_at. split; [exact Hrun|]. split; [exact Hd|exact Hevents].
Defined.

(** C10 as stated fails: where the directory that would contain the file
    is not there, [get_current_work] raises [FileNotFoundError], returns no
    work state and makes no file. *)
Lemma get_current_work_needs_directory :
  fs empty_world !! progress_file = None
  /\ get_current_work example_isoformat example_strftime progress_file empty_world
     = (Raise FileNotFoundError, mkWorld ∅ ∅ 2)
  /\ fs (snd (get_current_work example_isoformat example_strftime progress_file
               empty_world)) !! progress_file = None.
Proof. repeat split; vm_compute; reflexivity. Qed.

Lemma get_current_work_loads_or_creates_witness :
  (fs project_world !! progress_file = None
   /\ in_directory project_world progress_file
   /\ exists w1,
        get_current_work example_isoformat example_strftime progress_file project_world
        = (Ok (JDict [("type", JStr "general"); ("plan", JNull); ("planTask", JNull);
                      ("debugIssue", JNull); ("debugPhase", JNull)]), w1)
        /\ fs w1 !! progress_file <> fs project_world !! progress_file)
  /\ (holds_record world_with_default progress_file
        (default_record "test-project" "2025-12-11T17:00:00Z" "2025-12-11")
      /\ get_current_work example_isoformat example_strftime progress_file
           world_with_default
         = (Ok (JDict default_current_work), world_with_default)).
Proof.
  assert (Hnone : fs project_world !! progress_file = None) by (vm_compute; reflexivity).
  assert (Hdir : in_directory project_world progress_file) by (vm_compute; reflexivity).
  assert (Hd : holds_record world_with_default progress_file
                 (default_record "test-project" "2025-12-11T17:00:00Z" "2025-12-11"))
    by (vm_compute; reflexivity).
  split.
  - split; [exact Hnone|]. split; [exact Hdir|].
    destruct (get_current_work_loads_or_creates example_isoformat example_strftime
                progress_file project_world) as [Hcreate _].
    destruct (Hcreate Hnone Hdir) as (d & w1 & Hrun & _ & _ & Hchanged).
    exists w1. split; [exact Hrun|exact Hchanged].
  - split; [exact Hd|].
    destruct (get_current_work_loads_or_creates example_isoformat example_strftime
                progress_file world_with_default) as [_ Hread].
    apply (Hread _ _ Hd). reflexivity.
Defined.

(** ** The further theorems at concrete records, worlds and calls *)

Lemma nodup_keys_decide (d : pydict) :
  bool_decide (NoDup (dict_keys d)) = true -> NoDup (dict_keys d).
Proof. intros H. by apply bool_decide_eq_true in H. Defined.

Lemma from_dict_to_dict_witness :
  NoDup (dict_keys (data checkpoint_event))
  /\ dict_get "type" (data checkpoint_event) = None
  /\ dict_get "timestamp" (data checkpoint_event) = None
  /\ from_dict (to_dict checkpoint_event)
     = Ok (JStr "checkpoint", JStr "2025-12-11T18:00:00Z",
           [("summary", JStr "Mid-session save")]).
Proof.
  assert (Hnodup : NoDup (dict_keys (data checkpoint_event)))
    by (apply nodup_keys_decide; vm_compute; reflexivity).
  split; [exact Hnodup|]. split; [reflexivity|]. split; [reflexivity|].
  exact (from_dict_to_dict checkpoint_event Hnodup eq_refl eq_refl).
Defined.

Lemma to_dict_payload_wins_witness :
  NoDup (dict_keys (data clobbered_event))
  /\ dict_get "type" (to_dict clobbered_event) = Some (JStr "urgent")
  /\ dict_get "timestamp" (to_dict clobbered_event) = Some (JStr "2025-12-11T18:00:00Z").
Proof.
  assert (Hnodup : NoDup (dict_keys (data clobbered_event)))
    by (apply nodup_keys_decide; vm_compute; reflexivity).
  split; [exact Hnodup|]. split.
  - exact (to_dict_payload_wins clobbered_event "type" Hnodup).
  - exact (to_dict_payload_wins clobbered_event "timestamp" Hnodup).
Defined.

Lemma from_dict_outcome_witness :
  from_dict [("timestamp", JStr "2025-12-11T18:00:00Z")] = Raise (KeyError "type")
  /\ from_dict [("type", JStr "checkpoint")] = Raise (KeyError "timestamp")
  /\ exists payload, from_dict task_dict
                     = Ok (JStr "plan_task_completed", JStr "2025-12-11T18:00:00Z", payload)
                     /\ dict_get "task" payload = Some (JInt 3).
Proof.
  split; [exact (from_dict_outcome [("timestamp", JStr "2025-12-11T18:00:00Z")])|].
  split; [exact (from_dict_outcome [("type", JStr "checkpoint")])|].
  destruct (from_dict_outcome task_dict) as (payload & Hfrom & Hother & _).
  exists payload. split; [exact Hfrom|]. rewrite Hother by discriminate. reflexivity.
Defined.

Lemma to_dict_from_dict_witness :
  NoDup (dict_keys task_dict)
  /\ from_dict task_dict
     = Ok (JStr "plan_task_completed", JStr "2025-12-11T18:00:00Z", [("task", JInt 3)])
  /\ dict_get "task"
       (to_dict (mkEvent "plan_task_completed" "2025-12-11T18:00:00Z" [("task", JInt 3)]))
     = dict_get "task" task_dict.
Proof.
  assert (Hnodup : NoDup (dict_keys task_dict))
    by (apply nodup_keys_decide; vm_compute; reflexivity).
  split; [exact Hnodup|]. split; [reflexivity|].
  exact (to_dict_from_dict task_dict _ _ _ Hnodup eq_refl "task").
Defined.

Lemma validate_reads_four_keys_witness :
  (forall k, k ∈ REQUIRED_TOP_LEVEL ->
     dict_get k (dict_set "lastUpdated" JNull (dict_set "knownIssues" JNull valid_progress))
     = dict_get k valid_progress)
  /\ validate_progress_schema example_py_str
       (dict_set "lastUpdated" JNull (dict_set "knownIssues" JNull valid_progress))
     = validate_progress_schema example_py_str valid_progress.
Proof.
  assert (Hsame : forall k, k ∈ REQUIRED_TOP_LEVEL ->
     dict_get k (dict_set "lastUpdated" JNull (dict_set "knownIssues" JNull valid_progress))
     = dict_get k valid_progress).
  { intros k Hk. unfold REQUIRED_TOP_LEVEL in Hk.
    repeat (apply elem_of_cons in Hk as [->|Hk]; [reflexivity|]).
    by apply elem_of_nil in Hk. }
  split; [exact Hsame|].
  exact (validate_reads_four_keys example_py_str _ _ Hsame).
Defined.

Lemma validate_exceptions_witness :
  dict_get "version" record_with_null_current_work = Some (JInt 2)
  /\ dict_get "currentWork" record_with_null_current_work = Some JNull
  /\ validate_progress_schema example_py_str record_with_null_current_work
     = Raise TypeError.
Proof.
  split; [reflexivity|]. split; [reflexivity|].
  destruct (validate_exceptions example_py_str record_with_null_current_work)
    as (_ & _ & Hscalar).
  apply (Hscalar (JInt 2) JNull); reflexivity.
Defined.

Lemma created_records_validate_witness :
  fs project_world !! progress_file = None
  /\ in_directory project_world progress_file
  /\ exists d w',
       _load_progress example_isoformat example_strftime progress_file project_world
       = (Ok (JDict d), w')
       /\ validate_progress_schema example_py_str d = Ok tt.
Proof.
  assert (Hnone : fs project_world !! progress_file = None) by (vm_compute; reflexivity).
  assert (Hdir : in_directory project_world progress_file) by (vm_compute; reflexivity).
  split; [exact Hnone|]. split; [exact Hdir|].
  destruct (created_records_validate example_isoformat example_strftime example_py_str)
    as [_ Hload].
  destruct (Hload progress_file project_world Hnone Hdir) as (d & w' & Hrun & _ & Hvalid).
  exists d, w'. split; [exact Hrun|exact Hvalid].
Defined.

Lemma end_session_makes_valid_witness :
  holds_record (world_holding (JDict bare_record)) progress_file bare_record
  /\ validate_progress_schema example_py_str bare_record
     = Raise (ProgressValidationError "Missing required field: currentWork")
  /\ exists w' d',
       end_session example_isoformat example_strftime progress_file "test-123" 30 "S"
         [] None (world_holding (JDict bare_record)) = (Ok tt, w')
       /\ holds_record w' progress_file d'
       /\ validate_progress_schema example_py_str d' = Ok tt.
Proof.
  assert (Hd : holds_record (world_holding (JDict bare_record)) progress_file bare_record)
    by (vm_compute; reflexivity).
  split; [exact Hd|]. split; [reflexivity|].
  exact (end_session_makes_valid example_isoformat example_strftime example_py_str
           progress_file "test-123" 30 "S" [] None _ bare_record (JInt 2) Hd
           eq_refl eq_refl eq_refl).
Defined.

Lemma valid_after_set_and_start_witness :
  holds_record world_with_default progress_file
    (default_record "test-project" "2025-12-11T17:00:00Z" "2025-12-11")
  /\ (exists w' d',
        set_current_work example_isoformat example_strftime progress_file DEBUG None None
          (Some "Test failures") (Some "investigating") None world_with_default
        = (Ok tt, w')
        /\ holds_record w' progress_file d'
        /\ validate_progress_schema example_py_str d' = Ok tt)
  /\ (exists w' d',
        start_session example_isoformat example_strftime progress_file "test-123"
          world_with_default = (Ok tt, w')
        /\ holds_record w' progress_file d'
        /\ validate_progress_schema example_py_str d' = Ok tt).
Proof.
  assert (Hd : holds_record world_with_default progress_file
                 (default_record "test-project" "2025-12-11T17:00:00Z" "2025-12-11"))
    by (vm_compute; reflexivity).
  split; [exact Hd|].
  destruct (valid_after_set_and_start example_isoformat example_strftime example_py_str
              progress_file world_with_default _ Hd eq_refl) as [Hset Hstart].
  split; [apply Hset|]. apply (Hstart "test-123" default_current_work). reflexivity.
Defined.

Lemma start_session_resets_type_only_witness :
  holds_record (world_holding (JDict plan_record)) progress_file plan_record
  /\ exists w' d',
       start_session example_isoformat example_strftime progress_file "test-123"
         (world_holding (JDict plan_record)) = (Ok tt, w')
       /\ holds_record w' progress_file d'
       /\ nested_get "currentWork" "type" d' = Some (JStr "general")
       /\ nested_get "currentWork" "plan" d' = Some (JStr "p.md")
       /\ nested_get "currentWork" "planTask" d' = Some (JInt 2).
Proof.
  assert (Hd : holds_record (world_holding (JDict plan_record)) progress_file plan_record)
    by (vm_compute; reflexivity).
  split; [exact Hd|].
  destruct (start_session_resets_type_only example_isoformat example_strftime progress_file
              "test-123" _ plan_record
              (work_record PLAN (Some "p.md") (Some 2) None None None) Hd eq_refl)
    as (w' & d' & Hrun & Hd' & Htype & Hkeep & _).
  exists w', d'. split; [exact Hrun|]. split; [exact Hd'|]. split; [exact Htype|].
  split; [by rewrite Hkeep|by rewrite Hkeep].
Defined.

Lemma start_session_fails_clean_witness :
  holds_record (world_holding (JDict bare_record)) progress_file bare_record
  /\ start_session example_isoformat example_strftime progress_file "test-123"
       (world_holding (JDict bare_record))
     = (Raise (KeyError "currentWork"), world_holding (JDict bare_record))
  /\ holds_record (world_holding (JDict record_with_null_current_work)) progress_file
       record_with_null_current_work
  /\ start_session example_isoformat example_strftime progress_file "test-123"
       (world_holding (JDict record_with_null_current_work))
     = (Raise TypeError, world_holding (JDict record_with_null_current_work)).
Proof.
  assert (Hd : holds_record (world_holding (JDict bare_record)) progress_file bare_record)
    by (vm_compute; reflexivity).
  assert (Hd' : holds_record (world_holding (JDict record_with_null_current_work))
                  progress_file record_with_null_current_work)
    by (vm_compute; reflexivity).
  split; [exact Hd|]. split.
  - apply (start_session_fails_clean example_isoformat example_strftime progress_file
             "test-123" _ bare_record Hd). reflexivity.
  - split; [exact Hd'|].
    destruct (start_session_fails_clean example_isoformat example_strftime progress_file
                "test-123" _ record_with_null_current_work Hd') as [_ Hnot].
    apply (Hnot JNull); [reflexivity|discriminate].
Defined.

Lemma end_session_frame_witness :
  holds_record (world_holding (JDict plan_record)) progress_file plan_record
  /\ exists w' d',
       end_session example_isoformat example_strftime progress_file "test-123" 30 "S" []
         (Some [JStr "write tests"]) (world_holding (JDict plan_record)) = (Ok tt, w')
       /\ holds_record w' progress_file d'
       /\ dict_get "project" d' = Some (JStr "test-project")
       /\ nested_get "lastSession" "nextSteps" d' = Some (JList [JStr "write tests"]).
Proof.
  assert (Hd : holds_record (world_holding (JDict plan_record)) progress_file plan_record)
    by (vm_compute; reflexivity).
  split; [exact Hd|].
  destruct (end_session_frame example_isoformat example_strftime progress_file "test-123"
              30 "S" [] (Some [JStr "write tests"]) _ plan_record Hd)
    as (w' & d' & Hrun & Hd' & Hkeep & Hnext & _).
  exists w', d'. split; [exact Hrun|]. split; [exact Hd'|].
  split; [by rewrite Hkeep|exact Hnext].
Defined.

Lemma set_current_work_frame_witness :
  holds_record started_world progress_file
    (dict_set "lastUpdated" (JStr "2025-12-11T18:00:1Z")
       (default_record "test-project" "2025-12-11T17:00:00Z" "2025-12-11"))
  /\ exists w' d',
       set_current_work example_isoformat example_strftime progress_file FEATURE None
         None None None (Some "F-7") started_world = (Ok tt, w')
       /\ holds_record w' progress_file d'
       /\ dict_get "project" d' = Some (JStr "test-project")
       /\ _session_events w' = _session_events started_world.
Proof.
  assert (Hd : holds_record started_world progress_file
                 (dict_set "lastUpdated" (JStr "2025-12-11T18:00:1Z")
                    (default_record "test-project" "2025-12-11T17:00:00Z" "2025-12-11")))
    by (vm_compute; reflexivity).
  split; [exact Hd|].
  destruct (set_current_work_frame example_isoformat example_strftime progress_file
              FEATURE None None None None (Some "F-7") started_world _ Hd)
    as (w' & d' & Hrun & Hd' & Hkeep & Hbuf & _).
  exists w', d'. split; [exact Hrun|]. split; [exact Hd'|].
  split; [by rewrite Hkeep|exact Hbuf].
Defined.

Lemma corrupt_file_propagates_witness :
  fs corrupt_world !! progress_file = Some (File (OtherText "{not json"))
  /\ get_current_work example_isoformat example_strftime progress_file corrupt_world
     = (Raise JSONDecodeError, corrupt_world)
  /\ end_session example_isoformat example_strftime progress_file "test-123" 30 "S" []
       None corrupt_world
     = (Raise JSONDecodeError, corrupt_world).
Proof.
  assert (Hfile : fs corrupt_world !! progress_file = Some (File (OtherText "{not json")))
    by (vm_compute; reflexivity).
  split; [exact Hfile|].
  destruct (corrupt_file_propagates example_isoformat example_strftime progress_file
              "{not json" corrupt_world Hfile) as (_ & Hend & Hget & _).
  split; [exact Hget|apply Hend].
Defined.

Lemma non_object_file_raises_witness :
  fs list_world !! progress_file = Some (File (JsonText (JList [])))
  /\ get_current_work example_isoformat example_strftime progress_file list_world
     = (Raise AttributeError, list_world)
  /\ exists w',
       end_session example_isoformat example_strftime progress_file "test-123" 30 "S" []
         None list_world = (Raise TypeError, w')
       /\ fs w' = fs list_world
       /\ _session_events w' !! "test-123"
          = Some [mkEvent "session_start" "2025-12-11T17:59:59Z" [];
                  mkEvent "session_end" "2025-12-11T18:00:0Z" [("duration", JInt 30)]].
Proof.
  assert (Hfile : fs list_world !! progress_file = Some (File (JsonText (JList []))))
    by (vm_compute; reflexivity).
  assert (Hnot : forall d, JList [] <> JDict d) by discriminate.
  split; [exact Hfile|].
  destruct (non_object_file_raises example_isoformat example_strftime progress_file
              (JList []) list_world Hfile Hnot) as (_ & Hget & _ & Hend).
  split; [exact Hget|]. eexists. split; [apply Hend|].
  split; [reflexivity|]. vm_compute. reflexivity.
Defined.

Lemma all_events_flushed_in_order_witness :
  start_session example_isoformat example_strftime progress_file "test-123"
    world_with_default = (Ok tt, started_world)
  /\ exists w2 w3 d started_at,
       add_events example_isoformat progress_file "test-123" three_calls started_world
       = (Ok tt, w2)
       /\ end_session example_isoformat example_strftime progress_file "test-123" 30
            "Done" [] None w2 = (Ok tt, w3)
       /\ holds_record w3 progress_file d
       /\ nested_get "lastSession" "events" d
          = Some (JList
              [JDict [("type", JStr "session_start"); ("timestamp", JStr started_at)];
               JDict [("type", JStr "plan_started");
                      ("timestamp", JStr "2025-12-11T18:00:2Z");
                      ("plan", JStr "test.md")];
               JDict [("type", JStr "plan_task_completed");
                      ("timestamp", JStr "2025-12-11T18:00:3Z"); ("task", JInt 1)];
               JDict [("type", JStr "checkpoint");
                      ("timestamp", JStr "2025-12-11T18:00:4Z")];
               JDict [("type", JStr "session_end");
                      ("timestamp", JStr "2025-12-11T18:00:5Z");
                      ("duration", JInt 30)]]).
Proof.
  assert (Hstart : start_session example_isoformat example_strftime progress_file
                     "test-123" world_with_default = (Ok tt, started_world))
    by (vm_compute; reflexivity).
  split; [exact Hstart|].
  destruct (all_events_flushed_in_order example_isoformat example_strftime progress_file
              "test-123" three_calls 30 "Done" [] None world_with_default started_world
              Hstart) as (w2 & w3 & d & started_at & Hadd & Hend & Hd & Hevents & _).
  exists w2, w3, d, started_at. split; [exact Hadd|]. split; [exact Hend|].
  split; [exact Hd|]. rewrite Hevents. vm_compute. reflexivity.
Defined.

Lemma find_progress_file_sound_witness :
  is_directory tree_world ["sub"; "root"]
  /\ exists r w',
    find_progress_file example_isoformat example_strftime ["sub"; "root"] true tree_world
    = (Ok r, w')
    /\ (forall q, q <> ["sub"; "root"] // PROGRESS_FILENAME ->
          fs w' !! q = fs tree_world !! q).
Proof.
  assert (Hdir : is_directory tree_world ["sub"; "root"]) by (vm_compute; reflexivity).
  split; [exact Hdir|].
  destruct (find_progress_file_sound example_isoformat example_strftime ["sub"; "root"]
              true tree_world (fun _ => Hdir)) as (r & w' & Hrun & _ & _ & Hothers & _).
  exists r, w'. split; [exact Hrun|exact Hothers].
Defined.

Lemma find_progress_file_idempotent_witness :
  is_directory tree_world ["sub"; "root"]
  /\ find_progress_file example_isoformat example_strftime ["sub"; "root"] true tree_world
  = when_not_found example_isoformat example_strftime ["sub"; "root"] true tree_world
  /\ find_progress_file example_isoformat example_strftime ["sub"; "root"] true
       (snd (when_not_found example_isoformat example_strftime ["sub"; "root"] true
               tree_world))
     = when_not_found example_isoformat example_strftime ["sub"; "root"] true tree_world.
Proof.
  assert (Hfirst : find_progress_file example_isoformat example_strftime ["sub"; "root"]
                     true tree_world
                   = when_not_found example_isoformat example_strftime ["sub"; "root"]
                       true tree_world)
    by (vm_compute; reflexivity).
  assert (Hdir : is_directory tree_world ["sub"; "root"]) by (vm_compute; reflexivity).
  split; [exact Hdir|]. split; [exact Hfirst|].
  exact (find_progress_file_idempotent example_isoformat example_strftime ["sub"; "root"]
           true tree_world _ _ (fun _ => Hdir) Hfirst).
Defined.

Lemma find_creates_what_load_creates_witness :
  find_progress_file example_isoformat example_strftime ["sub"; "root"] false tree_world
  = (Ok None, tree_world)
  /\ is_directory tree_world ["sub"; "root"]
  /\ exists d w',
       find_progress_file example_isoformat example_strftime ["sub"; "root"] true
         tree_world = (Ok (Some ["project-progress.json"; "sub"; "root"]), w')
       /\ _load_progress example_isoformat example_strftime
            ["project-progress.json"; "sub"; "root"] tree_world = (Ok (JDict d), w')
       /\ dict_get "project" d = Some (JStr "sub").
Proof.
  assert (Hnothing : find_progress_file example_isoformat example_strftime ["sub"; "root"]
                       false tree_world = (Ok None, tree_world))
    by (vm_compute; reflexivity).
  assert (Hdir : is_directory tree_world ["sub"; "root"]) by (vm_compute; reflexivity).
  split; [exact Hnothing|]. split; [exact Hdir|].
  destruct (find_creates_what_load_creates example_isoformat example_strftime
              ["sub"; "root"] tree_world Hnothing Hdir)
    as (d & w' & Hfind & Hload & Hname & _).
  exists d, w'. split; [exact Hfind|]. split; [exact Hload|exact Hname].
Defined.
